(** * BenchBot API client: a shallow embedding of [benchbot_api/benchbot.py]

    The client drives a robot through a remote supervisor by HTTP requests.
    The embedding keeps the structure of the Python class [BenchBot]:

    - Python values returned by [resp.json()] are the inductive [value];
    - Python exceptions are the inductive [exn];
    - a method is a computation in the monad [M]: it threads the state of the
      supervisor (the outside world), emits the requests and the printed
      notices as a list of [event]s, and either returns or raises;
    - [requests.get], the formatting of a dict by [%s] and [importlib] are
      taken from a [runtime] record, since they are not code of this
      repository. *)

From Stdlib Require Import String Ascii List ZArith Lia Bool.
Import ListNotations.
Local Open Scope list_scope.
Local Open Scope string_scope.

Set Implicit Arguments.

(** ** Python strings *)

Module PyStr.

(** [s.endswith(suf)]: some suffix of [s] is [suf]. *)
Fixpoint endswith (s suf : string) : bool :=
  String.eqb s suf ||
  match s with
  | EmptyString => false
  | String _ s' => endswith s' suf
  end.

(** [sep.join(l)] *)
Fixpoint join (sep : string) (l : list string) : string :=
  match l with
  | [] => EmptyString
  | [x] => x
  | x :: rest => x ++ sep ++ join sep rest
  end.

(** [s.split(c)] for a separator of one character. *)
Fixpoint split (c : ascii) (s : string) : list string :=
  match s with
  | EmptyString => [EmptyString]
  | String a s' =>
      if Ascii.eqb a c then EmptyString :: split c s'
      else match split c s' with
           | [] => [String a EmptyString]
           | field :: fields => String a field :: fields
           end
  end.

(** [s.rsplit(c, 1)]: cut at the last occurrence of [c], if any. *)
Fixpoint rsplit1 (c : ascii) (s : string) : list string :=
  match s with
  | EmptyString => [EmptyString]
  | String a s' =>
      match rsplit1 c s' with
      | [before; after] => [String a before; after]
      | _ => if Ascii.eqb a c then [EmptyString; s']
             else [String a s']
      end
  end.

(** [needle in s] for two strings. *)
Fixpoint contains (needle s : string) : bool :=
  String.prefix needle s ||
  match s with
  | EmptyString => false
  | String _ s' => contains needle s'
  end.

(** Number of occurrences of a character. *)
Fixpoint count (c : ascii) (s : string) : nat :=
  match s with
  | EmptyString => 0
  | String a s' => (if Ascii.eqb a c then 1 else 0) + count c s'
  end.

Definition newline : string := String "010"%char EmptyString.
Definition dquote : string := String "034"%char EmptyString.

End PyStr.

(** ** Python values and exceptions *)

(** What [resp.json()] can return.  A dict is kept as an association list in
    insertion order (the order [.items()] iterates in); its keys are
    distinct.  Numbers are integers: the client never computes with a
    number, it only tests one for truth. *)
#[warnings="-register-all"]
Inductive value : Type :=
| PNone
| PBool (b : bool)
| PInt (n : Z)
| PStr (s : string)
| PList (l : list value)
| PDict (d : list (string * value)).

Definition dict : Type := list (string * value).

(** The exceptions the client raises or lets through.  [TypeError],
    [AttributeError] and [IndexError] carry the interpreter's own message,
    which is not modelled. *)
Inductive exn : Type :=
| RuntimeError (msg : string)
| ValueError (msg : string)
| TypeError
| KeyError (key : string)
| AttributeError
| IndexError
| ConnectionError (msg : string)                (* requests.ConnectionError *)
| UnexpectedResponseError (http_status_code : Z) (* _UnexpectedResponseError *)
| OtherError (name : string).                    (* anything else, by class name *)

Inductive ActionResult : Type := SUCCESS | FINISHED | COLLISION.

Inductive RouteType : Type := CONNECTION | CONFIG | SIMULATOR | STATUS | EXPLICIT.

(** [route_type.name] *)
Definition RouteType_name (t : RouteType) : string :=
  match t with
  | CONNECTION => "CONNECTION"
  | CONFIG => "CONFIG"
  | SIMULATOR => "SIMULATOR"
  | STATUS => "STATUS"
  | EXPLICIT => "EXPLICIT"
  end.

(** The argument [route_type] of [_build_address] is any Python object: a
    member of the enumeration, or something else, known by its [%s]
    rendering. *)
Inductive route_type_arg : Type :=
| Member (t : RouteType)
| Foreign (rendering : string).

(** ** Operators on values *)

Definition error (A : Type) : Type := (exn + A)%type.

Definition ebind {A B} (c : error A) (k : A -> error B) : error B :=
  match c with
  | inl e => inl e
  | inr a => k a
  end.

Declare Scope error_scope.
Delimit Scope error_scope with error.
Notation "x <- c ;; k" := (ebind c (fun x => k))
  (at level 61, c at next level, right associativity) : error_scope.

(** [a + b] where one operand is a str: concatenation of two strs, and a
    [TypeError] for any other operand. *)
Definition py_concat (a b : value) : error string :=
  match a, b with
  | PStr x, PStr y => inr (x ++ y)
  | _, _ => inl TypeError
  end.

(** [bool(v)] *)
Definition py_truthy (v : value) : bool :=
  match v with
  | PNone => false
  | PBool b => b
  | PInt n => negb (n =? 0)%Z
  | PStr s => negb (String.eqb s EmptyString)
  | PList l => match l with [] => false | _ => true end
  | PDict d => match d with [] => false | _ => true end
  end.

(** [d[k]] on a dict. *)
Fixpoint dict_get (d : dict) (k : string) : option value :=
  match d with
  | [] => None
  | (k', v) :: rest => if String.eqb k' k then Some v else dict_get rest k
  end.

(** [d[k] = v]: an existing key keeps its place. *)
Fixpoint dict_set (d : dict) (k : string) (v : value) : dict :=
  match d with
  | [] => [(k, v)]
  | (k', v') :: rest =>
      if String.eqb k' k then (k', v) :: rest
      else (k', v') :: dict_set rest k v
  end.

(** [v[k]] for a str key [k]. *)
Definition py_getitem (v : value) (k : string) : error value :=
  match v with
  | PDict d =>
      match dict_get d k with
      | Some x => inr x
      | None => inl (KeyError k)
      end
  | _ => inl TypeError
  end.

(** [k in v] for a str [k]. *)
Definition py_contains (v : value) (k : string) : error bool :=
  match v with
  | PDict d => inr (match dict_get d k with Some _ => true | None => false end)
  | PList l =>
      inr (existsb (fun x => match x with
                             | PStr s => String.eqb s k
                             | _ => false
                             end) l)
  | PStr s => inr (PyStr.contains k s)
  | _ => inl TypeError
  end.

(** A str is held as the bytes of its UTF-8 form.  A byte [10xxxxxx]
    continues the character that the bytes before it began. *)
Definition is_continuation (c : ascii) : bool :=
  (128 <=? nat_of_ascii c)%nat && (nat_of_ascii c <? 192)%nat.

(** The bytes of [s] by character, from the right: the continuation bytes
    that [s] starts with, and the characters after them. *)
Fixpoint code_points_from (s : string) : string * list string :=
  match s with
  | EmptyString => (EmptyString, [])
  | String a s' =>
      let (pending, chars) := code_points_from s' in
      if is_continuation a then (String a pending, chars)
      else (EmptyString, String a pending :: chars)
  end.

(** The characters of a str, each as a str of its own. *)
Definition code_points (s : string) : list string :=
  let (pending, chars) := code_points_from s in
  match pending with
  | EmptyString => chars
  | _ => pending :: chars
  end.

(** [for o in v]: the elements the loop visits; a str is walked character
    by character. *)
Definition py_iter (v : value) : error (list value) :=
  match v with
  | PList l => inr l
  | PDict d => inr (map (fun kv => PStr (fst kv)) d)
  | PStr s => inr (map PStr (code_points s))
  | _ => inl TypeError
  end.

(** ** The object and the route resolver *)

Definition callback : Type := value -> error value.

(** The fields of a [BenchBot] that the methods below read or write.  The
    agent is only used by [run]. *)
Record BenchBot : Type := {
  supervisor_address : string;
  _connection_callbacks : list (string * option callback)
}.

Definition _build_address (self : BenchBot) (route_name : value)
    (route_type : route_type_arg) : error string :=
  let base := supervisor_address self ++
              (if PyStr.endswith (supervisor_address self) "/"
               then EmptyString else "/") in
  match route_type with
  | Member CONNECTION => py_concat (PStr (base ++ "connections/")) route_name
  | Member CONFIG => py_concat (PStr (base ++ "config/")) route_name
  | Member SIMULATOR => py_concat (PStr (base ++ "simulator/")) route_name
  | Member STATUS => py_concat (PStr (base ++ "status/")) route_name
  | Member EXPLICIT => py_concat (PStr base) route_name
  | Foreign rendering =>
      inl (ValueError ("Cannot build address from invalid route type: " ++
                       rendering))
  end.

(** ** The outside world and the monad of the methods *)

(** What one call of [requests.get] does: it raises (host unreachable,
    timeout), or it returns a response with a status code and a body;
    [body = None] when [resp.json()] would raise on it. *)
Inductive response : Type :=
| Unreachable (e : exn)
| Response (status_code : Z) (body : option value).

(** What a method does that its caller, the supervisor or the user can see. *)
Inductive event : Type :=
| HttpGet (url : string) (json : option dict)
| Print (text : string)
| Sleep.                                   (* time.sleep(0.1) *)

(** What the methods use and this repository does not define.  [S] is the
    state of the supervisor and of the network. *)
Record runtime (S : Type) : Type := {
  requests_get : string -> option dict -> S -> response * S;
  format_dict : dict -> string;            (* '%s' % d for a dict d *)
  import_module : string -> error (string -> option callback)
}.

(** A call returns, raises, or is still waiting when the fuel of a polling
    loop is used up. *)
Inductive outcome (A : Type) : Type :=
| Returns (a : A)
| Raises (e : exn)
| Blocked.

Arguments Raises {A} e.
Arguments Blocked {A}.

Definition M (S A : Type) : Type := S -> outcome A * S * list event.

Definition ret {S A} (a : A) : M S A := fun s => (Returns a, s, []).

Definition raise {S A} (e : exn) : M S A := fun s => (Raises e, s, []).

Definition blocked {S A} : M S A := fun s => (Blocked, s, []).

(** The run [m] seen after the events [t1] have already happened. *)
Definition after {S A} (t1 : list event) (m : outcome A * S * list event)
    : outcome A * S * list event :=
  match m with
  | (r, s2, t2) => (r, s2, (t1 ++ t2)%list)
  end.

Definition bind {S A B} (c : M S A) (k : A -> M S B) : M S B :=
  fun s =>
    match c s with
    | (Returns a, s1, t1) => after t1 (k a s1)
    | (Raises e, s1, t1) => (Raises e, s1, t1)
    | (Blocked, s1, t1) => (Blocked, s1, t1)
    end.

Definition emit {S} (ev : event) : M S unit := fun s => (Returns tt, s, [ev]).

Definition lift {S A} (c : error A) : M S A :=
  match c with
  | inl e => raise e
  | inr a => ret a
  end.

(** [try: body except <classes>: handler] *)
Definition try_except {S A} (body : M S A) (catches : exn -> bool)
    (handler : exn -> M S A) : M S A :=
  fun s =>
    match body s with
    | (Raises e, s1, t1) =>
        if catches e then after t1 (handler e s1)
        else (Raises e, s1, t1)
    | other => other
    end.

Declare Scope m_scope.
Delimit Scope m_scope with m.
Notation "x <- c ;; k" := (bind c (fun x => k))
  (at level 61, c at next level, right associativity) : m_scope.
Notation "c ;;; k" := (bind c (fun _ => k))
  (at level 61, right associativity) : m_scope.

Definition any_exception (e : exn) : bool := true.

Definition is_ConnectionError (e : exn) : bool :=
  match e with
  | ConnectionError _ => true
  | _ => false
  end.

(** [type(e)(msg)]: an exception of the class of [e] with a new message. *)
Definition same_class (e : exn) (msg : string) : exn :=
  match e with
  | RuntimeError _ => RuntimeError msg
  | ValueError _ => ValueError msg
  | ConnectionError _ => ConnectionError msg
  | other => other
  end.

(** The action schema of [step]. *)
Definition VALID_ACTIONS : list (string * list string) :=
  [ ("move_next", []);
    ("move_distance", ["distance"]);
    ("move_angle", ["angle"]) ].

Fixpoint schema_get (schema : list (string * list string)) (k : string)
    : option (list string) :=
  match schema with
  | [] => None
  | (k', args) :: rest => if String.eqb k' k then Some args else schema_get rest k
  end.

(** [VALID_ACTIONS[action]], and [None] when [action not in VALID_ACTIONS];
    the action [None] is no key. *)
Definition VALID_ACTIONS_get (action : option string) : option (list string) :=
  match action with
  | Some a => schema_get VALID_ACTIONS a
  | None => None
  end.

Definition action_value (action : option string) : value :=
  match action with
  | Some a => PStr a
  | None => PNone
  end.

Definition str_in (x : string) (l : list string) : bool :=
  existsb (String.eqb x) l.

(** The binding of a call [step(action, **action_kwargs)] to
    [def step(self, action, **action_kwargs)]: a keyword named [self] or
    [action] collides with the parameter of that name, and Python raises a
    [TypeError] before the body runs. *)
Definition binds (action_kwargs : dict) : bool :=
  negb (str_in "self" (map fst action_kwargs)) &&
  negb (str_in "action" (map fst action_kwargs)).

(** [self._connection_callbacks[k]] *)
Fixpoint callbacks_get (reg : list (string * option callback)) (k : string)
    : error (option callback) :=
  match reg with
  | [] => inl (KeyError k)
  | (k', cb) :: rest => if String.eqb k' k then inr cb else callbacks_get rest k
  end.

Fixpoint callbacks_set (reg : list (string * option callback)) (k : string)
    (cb : option callback) : list (string * option callback) :=
  match reg with
  | [] => [(k, cb)]
  | (k', cb') :: rest =>
      if String.eqb k' k then (k', cb) :: rest
      else (k', cb') :: callbacks_set rest k cb
  end.

(** ** The methods of [BenchBot] *)

Section Methods.

Context {S : Type} (rt : runtime S).

Local Open Scope m_scope.

(** One call of [requests.get(url, json=json)]: the status code and the
    decoded body of the response, or the exception of the transport. *)
Definition http_get (url : string) (json : option dict)
    : M S (Z * option value) :=
  fun s =>
    match requests_get rt url json s with
    | (Unreachable e, s') => (Raises e, s', [HttpGet url json])
    | (Response status_code body, s') =>
        (Returns (status_code, body), s', [HttpGet url json])
    end.

(** [resp.json()] *)
Definition resp_json (body : option value) : M S value :=
  match body with
  | Some v => ret v
  | None => raise (OtherError "JSONDecodeError")
  end.

Definition _receive (self : BenchBot) (route_name : value)
    (route_type : RouteType) : M S value :=
  try_except
    (url <- lift (_build_address self route_name (Member route_type)) ;;
     resp <- http_get url None ;;
     if (300 <=? fst resp)%Z
     then raise (UnexpectedResponseError (fst resp))
     else resp_json (snd resp))
    any_exception
    (fun _ =>
       raise (ConnectionError
                "Failed to establish a connection to BenchBot supervisor")).

Definition _send (self : BenchBot) (route_name : string) (data : option dict)
    (route_type : RouteType) : M S unit :=
  let data := match data with None => [] | Some d => d end in
  try_except
    (url <- lift (_build_address self (PStr route_name) (Member route_type)) ;;
     resp <- http_get url (Some data) ;;
     if (300 <=? fst resp)%Z
     then raise (UnexpectedResponseError (fst resp))
     else ret tt)
    any_exception
    (fun _ =>
       raise (ConnectionError
                ("Failed to establish a connection to BenchBot supervisor with " ++
                 "input data: " ++ route_name ++ ", " ++
                 RouteType_name route_type ++ ", " ++ format_dict rt data))).

(** [_attempt_connection_imports]; the arguments of [getattr] are
    evaluated from left to right, the import before [x[1]]. *)
Definition _attempt_connection_imports (connection_data : value)
    : error (option callback) :=
  (declared <- py_contains connection_data "callback_api" ;;
   if declared : bool then
     api <- py_getitem connection_data "callback_api" ;;
     x <- match api with
          | PStr s => inr (PyStr.rsplit1 "."%char s)
          | _ => inl AttributeError
          end ;;
     module <- import_module rt ("benchbot_api." ++ hd EmptyString x) ;;
     match x with
     | [_; name] =>
         match module name with
         | Some f => inr (Some f)
         | None => inl AttributeError
         end
     | _ => inl IndexError
     end
   else inr None)%error.

(** The property [actions]. *)
Definition actions (self : BenchBot) : M S value :=
  collided <- _receive self (PStr "is_collided") SIMULATOR ;;
  is_collided <- lift (py_getitem collided "is_collided") ;;
  if py_truthy is_collided then ret (PList [])
  else
    finished <- _receive self (PStr "is_finished") STATUS ;;
    is_finished <- lift (py_getitem finished "is_finished") ;;
    if py_truthy is_finished then ret (PList [])
    else _receive self (PStr "actions") CONFIG.

(** The property [observations]. *)
Definition observations (self : BenchBot) : M S value :=
  _receive self (PStr "observations") CONFIG.

(** [{k: v for k, v in items}] *)
Definition dict_of_items (items : list (string * value)) : dict :=
  fold_left (fun d kv => dict_set d (fst kv) (snd kv)) items [].

(** The property [task_details]. *)
Definition task_details (self : BenchBot) : M S dict :=
  task_name <- _receive self (PStr "task_name") CONFIG ;;
  fields <- lift (match task_name with
                  | PStr s => inr (PyStr.split ":"%char s)
                  | _ => inl AttributeError
                  end) ;;
  ret (dict_of_items
         (combine ["type"; "control_mode"; "localisation_mode"]
                  (map PStr fields))).

(** The loop of [step] that checks the names of the arguments. *)
Fixpoint check_arguments (action : string) (_valid_arguments : list string)
    (items : dict) : error unit :=
  match items with
  | [] => inr tt
  | (arg_name, _) :: rest =>
      let _invalid_arguments :=
        if negb (str_in arg_name _valid_arguments) then [arg_name] else [] in
      if (0 <? length _invalid_arguments)%nat then
        inl (RuntimeError
               ("Valid arguments to " ++ action ++ " are: " ++
                PyStr.join " ," _valid_arguments ++
                ". The following arguments are invalid: " ++
                PyStr.join " ," _invalid_arguments))
      else check_arguments action _valid_arguments rest
  end.

(** The part of [step] that derives the result from the two flags. *)
Definition derive_action_result (self : BenchBot) : M S ActionResult :=
  collided <- _receive self (PStr "is_collided") SIMULATOR ;;
  is_collided <- lift (py_getitem collided "is_collided") ;;
  if py_truthy is_collided then ret COLLISION
  else
    finished <- _receive self (PStr "is_finished") STATUS ;;
    is_finished <- lift (py_getitem finished "is_finished") ;;
    if py_truthy is_finished then ret FINISHED
    else ret SUCCESS.

(** [{o: self._receive(o) for o in ...}].  [_receive] raises on a key that
    is no str, so every key stored is one. *)
Fixpoint fetch_raw_os (self : BenchBot) (keys : list value) (raw_os : dict)
    : M S dict :=
  match keys with
  | [] => ret raw_os
  | o :: rest =>
      v <- _receive self o CONNECTION ;;
      match o with
      | PStr k => fetch_raw_os self rest (dict_set raw_os k v)
      | _ => raise TypeError
      end
  end.

(** The comprehension that [step] returns: each raw observation through
    the callback of its key. *)
Fixpoint apply_callbacks (reg : list (string * option callback))
    (items : dict) (out : dict) : error dict :=
  match items with
  | [] => inr out
  | (k, v) :: rest =>
      (cb <- callbacks_get reg k ;;
       v' <- match cb with
             | Some f => f v
             | None => inr v
             end ;;
       apply_callbacks reg rest (dict_set out k v'))%error
  end.

Definition step (self : BenchBot) (action : option string)
    (action_kwargs : dict) : M S (dict * ActionResult) :=
  if negb (binds action_kwargs) then raise TypeError else
  match VALID_ACTIONS_get action with
  | None =>
      msg <- lift (m1 <- py_concat (action_value action)
                             (PStr (" not a valid action. Valid actions are " ++
                                    PyStr.dquote)) ;;
                   py_concat (PStr m1)
                     (PStr (PyStr.join ", " (map fst VALID_ACTIONS))))%error ;;
      raise (RuntimeError msg)
  | Some _valid_arguments =>
      let _action_kwargs_len := length action_kwargs in
      let _valid_action_kwargs_len := length _valid_arguments in
      if negb (_action_kwargs_len =? _valid_action_kwargs_len)%nat then
        msg <- lift (m1 <- py_concat (action_value action) (PStr " requires ") ;;
                     m2 <- py_concat (PStr m1)
                             (PInt (Z.of_nat _valid_action_kwargs_len)) ;;
                     m3 <- py_concat (PStr m2) (PStr " arguments. You supplied ") ;;
                     py_concat (PStr m3) (PInt (Z.of_nat _action_kwargs_len)))%error ;;
        raise (RuntimeError msg)
      else
        lift (match action with
              | Some a => check_arguments a _valid_arguments action_kwargs
              | None => inr tt
              end) ;;;
        match action with
        | Some a =>
            emit (Print ("Sending action '" ++ a ++ "' with args: " ++
                         format_dict rt action_kwargs ++ PyStr.newline)) ;;;
            _send self a (Some action_kwargs) CONNECTION
        | None => ret tt
        end ;;;
        action_result <- derive_action_result self ;;
        keys <- observations self ;;
        keys <- lift (py_iter keys) ;;
        raw_os <- fetch_raw_os self keys [] ;;
        os <- lift (apply_callbacks (_connection_callbacks self) raw_os []) ;;
        ret (os, action_result)
  end.

Definition reset (self : BenchBot) : M S (dict * ActionResult) :=
  dirty <- _receive self (PStr "is_dirty") SIMULATOR ;;
  is_dirty <- lift (py_getitem dirty "is_dirty") ;;
  (if py_truthy is_dirty then
     emit (Print "Dirty simulator state detected. Performing reset ... ") ;;;
     _receive self (PStr "restart") SIMULATOR ;;;
     emit (Print ("Complete." ++ PyStr.newline))
   else ret tt) ;;;
  step self None [].

(** The polling loop of [start]; [fuel] bounds the number of polls. *)
Fixpoint wait_until_running (fuel : nat) (self : BenchBot) : M S unit :=
  match fuel with
  | O => blocked
  | Datatypes.S fuel' =>
      running <- _receive self (PStr "is_running") SIMULATOR ;;
      is_running <- lift (py_getitem running "is_running") ;;
      if negb (py_truthy is_running) then
        emit Sleep ;;; wait_until_running fuel' self
      else ret tt
  end.

(** [{k: _attempt_connection_imports(v) for k, v in items}] *)
Fixpoint import_callbacks (items : dict)
    (reg : list (string * option callback))
    : error (list (string * option callback)) :=
  match items with
  | [] => inr reg
  | (k, v) :: rest =>
      (cb <- _attempt_connection_imports v ;;
       import_callbacks rest (callbacks_set reg k cb))%error
  end.

Definition start (fuel : nat) (self : BenchBot) : M S BenchBot :=
  emit (Print "Waiting to establish connection to a running supervisor ... ") ;;;
  try_except
    (_receive self (PStr "/") EXPLICIT)
    is_ConnectionError
    (fun e =>
       raise (same_class e
                ("Could not find a BenchBot supervisor @ '" ++
                 supervisor_address self ++ "'. " ++
                 "Are you sure it is available?"))) ;;;
  emit (Print ("Connected!" ++ PyStr.newline)) ;;;
  emit (Print "Waiting to establish connection to a running simulator ... ") ;;;
  wait_until_running fuel self ;;;
  emit (Print ("Connected!" ++ PyStr.newline)) ;;;
  robot <- _receive self (PStr "robot") CONFIG ;;
  items <- lift (match robot with
                 | PDict d => inr d
                 | _ => inl AttributeError
                 end) ;;
  reg <- lift (import_callbacks items []) ;;
  ret {| supervisor_address := supervisor_address self;
         _connection_callbacks := reg |}.

End Methods.

(** ** A supervisor for tests *)

(** A supervisor that answers from a fixed table of routes; a route that is
    not in the table gets a 404, and a host that is down answers nothing. *)
Module Stub.

Record supervisor : Type := {
  up : bool;
  routes : list (string * value)
}.

Fixpoint lookup (t : list (string * value)) (url : string) : option value :=
  match t with
  | [] => None
  | (u, v) :: rest => if String.eqb u url then Some v else lookup rest url
  end.

Definition answer (url : string) (json : option dict) (sv : supervisor)
    : response * supervisor :=
  if up sv then
    match lookup (routes sv) url with
    | Some v => (Response 200 (Some v), sv)
    | None => (Response 404 None, sv)
    end
  else (Unreachable (OtherError "ConnectTimeout"), sv).

Definition rt : runtime supervisor := {|
  requests_get := answer;
  format_dict := fun d => "{" ++ PyStr.join ", " (map fst d) ++ "}";
  import_module := fun _ => inl (OtherError "ImportError")
|}.

Definition bot (reg : list (string * option callback)) : BenchBot := {|
  supervisor_address := "http://benchbot_supervisor:10000/";
  _connection_callbacks := reg
|}.

Definition flag (name : string) (b : bool) : value := PDict [(name, PBool b)].

(** A running episode with two observations. *)
Definition episode (collided finished : bool) : supervisor := {|
  up := true;
  routes :=
    [ ("http://benchbot_supervisor:10000//", PStr "Hello");
      ("http://benchbot_supervisor:10000/connections/move_next", PNone);
      ("http://benchbot_supervisor:10000/connections/move_distance", PNone);
      ("http://benchbot_supervisor:10000/simulator/is_collided",
       flag "is_collided" collided);
      ("http://benchbot_supervisor:10000/status/is_finished",
       flag "is_finished" finished);
      ("http://benchbot_supervisor:10000/simulator/is_dirty",
       flag "is_dirty" false);
      ("http://benchbot_supervisor:10000/config/actions",
       PList [PStr "move_next"; PStr "move_distance"; PStr "move_angle"]);
      ("http://benchbot_supervisor:10000/config/observations",
       PList [PStr "image_rgb"; PStr "poses"]);
      ("http://benchbot_supervisor:10000/config/task_name",
       PStr "semantic_slam:active:ground_truth");
      ("http://benchbot_supervisor:10000/connections/image_rgb", PInt 7);
      ("http://benchbot_supervisor:10000/connections/poses", PList [PInt 1]) ]
|}.

Definition down : supervisor := {| up := false; routes := [] |}.

(** A supervisor whose task name has a single field. *)
Definition short_task : supervisor := {|
  up := true;
  routes := [ ("http://benchbot_supervisor:10000/config/task_name",
               PStr "semantic_slam") ]
|}.

(** A callback: wrap the raw value in a list. *)
Definition wrap : callback := fun v => inr (PList [v]).

(** A registry for the two observations of [episode]. *)
Definition registry : list (string * option callback) :=
  [("image_rgb", Some wrap); ("poses", None)].

End Stub.

(** ** The route resolver as the specification words it *)

Definition ensure_trailing_slash (base : string) : string :=
  if PyStr.endswith base "/" then base else base ++ "/".

Definition namespace_prefix (t : RouteType) : string :=
  match t with
  | CONNECTION => "connections/"
  | CONFIG => "config/"
  | SIMULATOR => "simulator/"
  | STATUS => "status/"
  | EXPLICIT => EmptyString
  end.

Definition resolve (base resource_name : string) (t : RouteType) : string :=
  ensure_trailing_slash base ++ namespace_prefix t ++ resource_name.

(** The address of a resource for a given client. *)
Definition url_of (self : BenchBot) (t : RouteType) (resource_name : string)
    : string :=
  resolve (supervisor_address self) resource_name t.

(** The two messages of the transport shim. *)
Definition receive_failure : string :=
  "Failed to establish a connection to BenchBot supervisor".

Definition send_failure {S} (rt : runtime S) (route_name : string)
    (route_type : RouteType) (data : dict) : string :=
  "Failed to establish a connection to BenchBot supervisor with " ++
  "input data: " ++ route_name ++ ", " ++ RouteType_name route_type ++ ", " ++
  format_dict rt data.

(** A computation that does not wait on a polling loop. *)
Definition never_blocks {S A} (c : M S A) : Prop :=
  forall s s1 t1, c s <> (Blocked, s1, t1).

(** The names among the supplied arguments that the schema does not allow. *)
Definition offending (valid : list string) (kwargs : dict) : list string :=
  filter (fun name => negb (str_in name valid)) (map fst kwargs).

(** The supervisor answers the plain GET requests of a list in order, each
    with a success status and the body given with it, and goes from one
    state to another. *)
Inductive serves {S : Type} (rt : runtime S)
    : S -> list (string * value) -> S -> Prop :=
| serves_nil (s : S) : serves rt s [] s
| serves_cons (s s1 s2 : S) (url : string) (body : value) (code : Z)
    (rest : list (string * value)) :
    requests_get rt url None s = (Response code (Some body), s1) ->
    (code < 300)%Z ->
    serves rt s1 rest s2 ->
    serves rt s ((url, body) :: rest) s2.

(** What the registry makes of the raw value of one observation: the result
    of the callback when the entry of the key declares one, the raw value
    when the entry declares none. *)
Definition observed (reg : list (string * option callback)) (k : string)
    (raw out : value) : Prop :=
  match callbacks_get reg k with
  | inr (Some f) => f raw = inr out
  | inr None => out = raw
  | inl _ => False
  end.

(** The notice and the request of a step that sends an action. *)
Definition sending {S : Type} (rt : runtime S) (self : BenchBot) (a : string)
    (kwargs : dict) : list event :=
  [ Print ("Sending action '" ++ a ++ "' with args: " ++
           format_dict rt kwargs ++ PyStr.newline);
    HttpGet (url_of self CONNECTION a) (Some kwargs) ].

(** One plain GET request per observation key. *)
Definition fetches (self : BenchBot) (keys : list string) : list event :=
  map (fun k => HttpGet (url_of self CONNECTION k) None) keys.

(** An exchange that fails: the transport raises, or the status is an
    HTTP failure status. *)
Definition failed (r : response) : Prop :=
  match r with
  | Unreachable _ => True
  | Response status_code _ => (300 <= status_code)%Z
  end.

(** The keys of the dictionary of [task_details]. *)
Definition task_keys : list string :=
  ["type"; "control_mode"; "localisation_mode"].

(** ** The agent, the file system and the methods that use them *)

(** The agent of [benchbot_api.agent]: its three methods are computations
    of their own, which may ask the supervisor, print or raise. *)
Record Agent (S : Type) : Type := {
  is_done : ActionResult -> M S bool;
  pick_action : dict -> value -> M S (option string * dict);
  save_result : string -> M S unit
}.

(** The argument [agent] of the constructor: an instance of [Agent], or an
    object of some other class. *)
Inductive agent_arg (S : Type) : Type :=
| IsAgent (agent : Agent S)
| NotAgent (class_name : string).

Arguments NotAgent {S} class_name.

(** [os.path.exists] and [os.makedirs]. *)
Record filesystem (S : Type) : Type := {
  path_exists : string -> M S bool;
  makedirs : string -> M S unit
}.

Definition DEFAULT_ADDRESS : string := "benchbot_supervisor".

(** [str(DEFAULT_PORT)] *)
Definition DEFAULT_PORT : string := "10000".

Definition RESULT_LOCATION : string := "/tmp/benchbot_result".

(** The default of the argument [supervisor_address]. *)
Definition default_supervisor_address : string :=
  "http://" ++ DEFAULT_ADDRESS ++ ":" ++ DEFAULT_PORT ++ "/".

(** [s.rstrip(c)] for one character. *)
Fixpoint rstrip (c : ascii) (s : string) : string :=
  match s with
  | EmptyString => EmptyString
  | String a s' =>
      match rstrip c s' with
      | EmptyString => if Ascii.eqb a c then EmptyString else String a EmptyString
      | r => String a r
      end
  end.

(** [os.path.dirname] of a POSIX path: everything up to the last slash,
    without trailing slashes unless it is slashes only. *)
Definition dirname (p : string) : string :=
  let head := match PyStr.rsplit1 "/"%char p with
              | [before; _] => before ++ "/"
              | _ => EmptyString
              end in
  match rstrip "/"%char head with
  | EmptyString => head
  | stripped => stripped
  end.

Section Episode.

Context {S : Type} (rt : runtime S) (fs : filesystem S).

Local Open Scope m_scope.

Definition __init__ (fuel : nat) (agent : agent_arg S)
    (supervisor_address : string) (auto_start : bool)
    : M S (BenchBot * Agent S) :=
  match agent with
  | NotAgent class_name =>
      raise (ValueError ("BenchBot received an agent of type '" ++ class_name ++
                         "' " ++ "which is not an instance of '" ++ "Agent" ++
                         "'."))
  | IsAgent ag =>
      let self := {| supervisor_address := supervisor_address;
                     _connection_callbacks := [] |} in
      if auto_start then
        self' <- start rt fuel self ;;
        ret (self', ag)
      else ret (self, ag)
  end.

(** The property [result_filename]; [os.path.join] of one path is the path. *)
Definition result_filename : M S string :=
  present <- path_exists fs (dirname RESULT_LOCATION) ;;
  (if negb present then makedirs fs (dirname RESULT_LOCATION) else ret tt) ;;;
  ret RESULT_LOCATION.

(** The loop of [run]; [fuel] bounds the number of its iterations. *)
Fixpoint run_loop (fuel : nat) (self : BenchBot) (agent : Agent S)
    (observations : dict) (action_result : ActionResult) : M S unit :=
  match fuel with
  | O => blocked
  | Datatypes.S fuel' =>
      done <- is_done agent action_result ;;
      if negb done then
        available <- actions rt self ;;
        choice <- pick_action agent observations available ;;
        r <- step rt self (fst choice) (snd choice) ;;
        run_loop fuel' self agent (fst r) (snd r)
      else ret tt
  end.

Definition run (fuel : nat) (self : BenchBot) (agent : Agent S) : M S unit :=
  r <- reset rt self ;;
  run_loop fuel self agent (fst r) (snd r) ;;;
  name <- result_filename ;;
  save_result agent name.

End Episode.

(** A supervisor that answers from a script, one response per request
    whatever the address, and with a 404 once the script is used up. *)
Module Script.

Definition answer (url : string) (json : option dict) (script : list response)
    : response * list response :=
  match script with
  | [] => (Response 404 None, [])
  | r :: rest => (r, rest)
  end.

(** The one module that imports, with the one function it has. *)
Definition import (name : string) : error (string -> option callback) :=
  if String.eqb name "benchbot_api.api_callbacks" then
    inr (fun attr => if String.eqb attr "wrap" then Some Stub.wrap else None)
  else inl (OtherError "ImportError").

Definition rt : runtime (list response) := {|
  requests_get := answer;
  format_dict := fun d => "{" ++ PyStr.join ", " (map fst d) ++ "}";
  import_module := import
|}.

Definition ok (body : value) : response := Response 200 (Some body).

(** An agent that stops at once and never picks an action. *)
Definition idle : Agent (list response) := {|
  is_done := fun _ => ret true;
  pick_action := fun _ _ => ret (None, []);
  save_result := fun _ => ret tt
|}.

(** A file system where every path exists. *)
Definition files : filesystem (list response) := {|
  path_exists := fun _ => ret true;
  makedirs := fun _ => ret tt
|}.

End Script.

(** What [step] does once the action has passed validation (the lines from
    [# Perform the requested action] on), for an action that is a str. *)
Definition perform {S : Type} (rt : runtime S) (self : BenchBot) (a : string)
    (action_kwargs : dict) : M S (dict * ActionResult) :=
  (emit (Print ("Sending action '" ++ a ++ "' with args: " ++
                format_dict rt action_kwargs ++ PyStr.newline)) ;;;
   _send rt self a (Some action_kwargs) CONNECTION ;;;
   action_result <- derive_action_result rt self ;;
   keys <- observations rt self ;;
   keys <- lift (py_iter keys) ;;
   raw_os <- fetch_raw_os rt self keys [] ;;
   os <- lift (apply_callbacks (_connection_callbacks self) raw_os []) ;;
   ret (os, action_result))%m.

(** The message of [step] for an action that is not in the schema; its
    quotation mark is opened and never closed. *)
Definition invalid_action_message (a : string) : string :=
  a ++ " not a valid action. Valid actions are " ++ PyStr.dquote ++
  "move_next, move_distance, move_angle".

(** The body of a flag answer holds the flag under its name, and the flag
    tests as [b]. *)
Definition flag_is (name : string) (b : bool) (body : value) : Prop :=
  exists v, py_getitem body name = inr v /\ py_truthy v = b.

(** The polls of [start] that find the simulator not running yet, each
    followed by a sleep, and the one that finds it running. *)
Definition polls (self : BenchBot) (waits : list value) : list event :=
  (flat_map (fun _ => [HttpGet (url_of self SIMULATOR "is_running") None; Sleep])
            waits ++
   [HttpGet (url_of self SIMULATOR "is_running") None])%list.

(** The value that comes last for a key in a list of items, if any. *)
Definition last_value (k : string) (items : list (string * value))
    : option value :=
  fold_left (fun found kv => if String.eqb (fst kv) k then Some (snd kv)
                             else found) items None.

(** The message of [start] when the probe fails. *)
Definition not_found_message (self : BenchBot) : string :=
  "Could not find a BenchBot supervisor @ '" ++ supervisor_address self ++
  "'. " ++ "Are you sure it is available?".

(** The client as the constructor leaves it when it does not start the
    handshake itself: no registry yet. *)
Definition unstarted (address : string) : BenchBot :=
  {| supervisor_address := address; _connection_callbacks := [] |}.

(** The keys of a list without their repetitions, each at the place where
    it comes first; [seen] holds the keys met so far. *)
Fixpoint distinct (seen keys : list string) : list string :=
  match keys with
  | [] => []
  | k :: rest =>
      if str_in k seen then distinct seen rest
      else k :: distinct (seen ++ [k]) rest
  end.

(** ** Facts on strings *)

Lemma append_assoc (a b c : string) : (a ++ b) ++ c = a ++ (b ++ c).
Proof.
  induction a as [|x a IH]; simpl; [reflexivity | now rewrite IH].
Qed.

Lemma append_empty_r (a : string) : a ++ EmptyString = a.
Proof.
  induction a as [|x a IH]; simpl; [reflexivity | now rewrite IH].
Qed.

Lemma endswith_suffix (s suf : string) :
  PyStr.endswith s suf = true <-> exists p, s = p ++ suf.
Proof.
  induction s as [|a s IH]; cbn [PyStr.endswith].
  - rewrite orb_false_r. split.
    + intros H. apply String.eqb_eq in H. subst suf. now exists EmptyString.
    + intros [p Hp]. destruct p; simpl in Hp; [|discriminate].
      subst suf. reflexivity.
  - rewrite orb_true_iff, IH. split.
    + intros [H | [p Hp]].
      * apply String.eqb_eq in H. exists EmptyString. now rewrite <- H.
      * exists (String a p). simpl. now rewrite Hp.
    + intros [p Hp]. destruct p as [|b p]; simpl in Hp.
      * left. rewrite <- Hp. apply String.eqb_refl.
      * right. injection Hp as _ Hp. now exists p.
Qed.

Lemma ensure_trailing_slash_ends (base : string) :
  exists p, ensure_trailing_slash base = p ++ "/".
Proof.
  unfold ensure_trailing_slash.
  destruct (PyStr.endswith base "/") eqn:E.
  - now apply endswith_suffix.
  - now exists base.
Qed.

(** ** The route resolver *)

Lemma build_address_member (self : BenchBot) (name : string) (t : RouteType) :
  _build_address self (PStr name) (Member t) = inr (url_of self t name).
Proof.
  unfold _build_address, url_of, resolve, ensure_trailing_slash.
  destruct (PyStr.endswith (supervisor_address self) "/"), t; simpl;
    rewrite ?append_empty_r, ?append_assoc; reflexivity.
Qed.

(** C9.  For every base address, resource name and namespace of the
    enumeration, the route resolver returns the base with a trailing slash
    ensured, then the prefix of the namespace ([connections/], [config/],
    [simulator/], [status/], nothing for EXPLICIT), then the resource name.
    The base so completed is the base itself when it ends in a slash and the
    base followed by a slash otherwise.  The resolver is a function of its
    arguments alone, and with a resource name that is a str it fails exactly
    when the namespace is no member of the enumeration.  (A base that is
    empty is covered as well.) *)
Theorem build_address_resolves (self : BenchBot) (name : string) :
  (forall t : RouteType,
      _build_address self (PStr name) (Member t)
      = inr (ensure_trailing_slash (supervisor_address self) ++
             namespace_prefix t ++ name)) /\
  (exists p, ensure_trailing_slash (supervisor_address self) = p ++ "/") /\
  ((exists p, supervisor_address self = p ++ "/") ->
   ensure_trailing_slash (supervisor_address self) = supervisor_address self) /\
  (~ (exists p, supervisor_address self = p ++ "/") ->
   ensure_trailing_slash (supervisor_address self)
   = supervisor_address self ++ "/") /\
  (forall route_type : route_type_arg,
      (exists e, _build_address self (PStr name) route_type = inl e) <->
      (exists rendering, route_type = Foreign rendering)).
Proof.
  split; [intros t; apply build_address_member|].
  split; [apply ensure_trailing_slash_ends|].
  split; [|split].
  - intros H. apply endswith_suffix in H.
    unfold ensure_trailing_slash. now rewrite H.
  - intros H. unfold ensure_trailing_slash.
    destruct (PyStr.endswith (supervisor_address self) "/") eqn:E;
      [|reflexivity].
    exfalso. apply H. now apply endswith_suffix.
  - intros route_type. split.
    + intros [e He]. destruct route_type as [t | r].
      * rewrite build_address_member in He. discriminate.
      * now exists r.
    + intros [r ->]. simpl. eauto.
Qed.

(** ** The transport shim *)

Section Transport.

Context {S : Type} (rt : runtime S).

Lemma bind_returns {A B} (c : M S A) (k : A -> M S B) s a s1 t1 :
  c s = (Returns a, s1, t1) -> bind c k s = after t1 (k a s1).
Proof.
  intros H. unfold bind. now rewrite H.
Qed.

Lemma never_blocks_lift {A} (c : error A) :
  never_blocks (S := S) (lift c).
Proof. intros s s1 t1. destruct c; discriminate. Qed.

Lemma never_blocks_emit ev : never_blocks (S := S) (emit ev).
Proof. intros s s1 t1. discriminate. Qed.

Lemma never_blocks_ret {A} (a : A) : never_blocks (S := S) (ret a).
Proof. intros s s1 t1. discriminate. Qed.

Lemma never_blocks_bind {A B} (c : M S A) (k : A -> M S B) :
  never_blocks c -> (forall a, never_blocks (k a)) -> never_blocks (bind c k).
Proof.
  intros Hc Hk s s1 t1. unfold bind.
  destruct (c s) as [[[a | e |] s2] t2] eqn:E; try discriminate.
  - destruct (k a s2) as [[r s3] t3] eqn:E'. cbn. intros [= -> -> _].
    now apply (Hk a s2 s1 t3).
  - now apply Hc in E.
Qed.

(** When the continuation always raises, so does the whole. *)
Lemma bind_tail_raises {A B} (c : M S A) (k : A -> M S B) s :
  never_blocks c ->
  (forall a s1, exists e s' tr, k a s1 = (Raises e, s', tr)) ->
  exists e s' tr, bind c k s = (Raises e, s', tr).
Proof.
  intros Hc Hk. unfold bind.
  destruct (c s) as [[[a | e |] s1] t1] eqn:E.
  - destruct (Hk a s1) as (e & s' & tr & ->). cbn. eauto.
  - eauto.
  - now apply Hc in E.
Qed.

Lemma bind_raises {A B} (c : M S A) (k : A -> M S B) s e s1 t1 :
  c s = (Raises e, s1, t1) -> bind c k s = (Raises e, s1, t1).
Proof.
  intros H. unfold bind. now rewrite H.
Qed.

Lemma receive_returns self name t sv code v sv' :
  requests_get rt (url_of self t name) None sv
  = (Response code (Some v), sv') ->
  (code < 300)%Z ->
  _receive rt self (PStr name) t sv
  = (Returns v, sv', [HttpGet (url_of self t name) None]).
Proof.
  intros Hget Hcode.
  unfold _receive, try_except, bind, lift, http_get.
  rewrite build_address_member. cbn [ret]. rewrite Hget. cbn [fst snd].
  destruct (Z.leb_spec 300 code); [lia|]. reflexivity.
Qed.

(** Whatever goes wrong in an exchange of [_receive], its bare [except]
    turns it into the one [ConnectionError]. *)
Lemma receive_raises self name t sv r sv' :
  requests_get rt (url_of self t name) None sv = (r, sv') ->
  match r with
  | Unreachable _ => True
  | Response code body => (300 <= code)%Z \/ body = None
  end ->
  _receive rt self (PStr name) t sv
  = (Raises (ConnectionError receive_failure), sv',
     [HttpGet (url_of self t name) None]).
Proof.
  intros Hget Hbad.
  unfold _receive, try_except, bind, lift, http_get.
  rewrite build_address_member. cbn [ret]. rewrite Hget.
  destruct r as [e | code body]; [reflexivity|]. cbn [fst snd].
  destruct (Z.leb_spec 300 code); [reflexivity|].
  destruct Hbad as [Hbad | ->]; [lia | reflexivity].
Qed.

(** A resource name that is no str never reaches the network. *)
Lemma receive_not_str self (o : value) t sv :
  (forall k, o <> PStr k) ->
  _receive rt self o t sv = (Raises (ConnectionError receive_failure), sv, []).
Proof.
  intros Ho. unfold _receive, try_except, bind, lift, _build_address.
  destruct o; try (destruct t; reflexivity). now destruct (Ho s).
Qed.

Lemma send_returns self name t data sv code body sv' :
  requests_get rt (url_of self t name) (Some data) sv
  = (Response code body, sv') ->
  (code < 300)%Z ->
  _send rt self name (Some data) t sv
  = (Returns tt, sv', [HttpGet (url_of self t name) (Some data)]).
Proof.
  intros Hget Hcode.
  unfold _send, try_except, bind, lift, http_get.
  rewrite build_address_member. cbn [ret]. rewrite Hget. cbn [fst snd].
  destruct (Z.leb_spec 300 code); [lia|]. reflexivity.
Qed.

Lemma send_raises self name t data sv r sv' :
  requests_get rt (url_of self t name) (Some data) sv = (r, sv') ->
  match r with
  | Unreachable _ => True
  | Response code _ => (300 <= code)%Z
  end ->
  _send rt self name (Some data) t sv
  = (Raises (ConnectionError (send_failure rt name t data)), sv',
     [HttpGet (url_of self t name) (Some data)]).
Proof.
  intros Hget Hbad.
  unfold _send, try_except, bind, lift, http_get.
  rewrite build_address_member. cbn [ret]. rewrite Hget.
  destruct r as [e | code body]; [reflexivity|]. cbn [fst snd].
  destruct (Z.leb_spec 300 code); [reflexivity | lia].
Qed.

(** C2.  What the code does when an exchange fails.  In [_receive] and in
    [_send] alike, a failure of the transport and an HTTP failure status
    (300 or more) both end in a [ConnectionError] with the fixed message
    of the method: the [_UnexpectedResponseError] raised for the status is
    caught by the bare [except] around it, so the caller never sees it,
    and the message does not hold the status code.  The two kinds of
    failure give the caller the same exception. *)
Theorem transport_failure_is_ConnectionError
    self name t (data : dict) sv r1 sv1 r2 sv2 :
  requests_get rt (url_of self t name) None sv = (r1, sv1) ->
  failed r1 ->
  requests_get rt (url_of self t name) (Some data) sv = (r2, sv2) ->
  failed r2 ->
  _receive rt self (PStr name) t sv
  = (Raises (ConnectionError receive_failure), sv1,
     [HttpGet (url_of self t name) None]) /\
  _send rt self name (Some data) t sv
  = (Raises (ConnectionError (send_failure rt name t data)), sv2,
     [HttpGet (url_of self t name) (Some data)]).
Proof.
  intros Hget1 Hbad1 Hget2 Hbad2. split.
  - apply (receive_raises self name t sv Hget1).
    destruct r1; [exact I | now left].
  - apply (send_raises self name t data sv Hget2).
    destruct r2; [exact I | exact Hbad2].
Qed.

End Transport.

(** ** The validation of an action *)

Section Validation.

Context {S : Type} (rt : runtime S).

Lemma schema_cases (a : string) (valid : list string) :
  schema_get VALID_ACTIONS a = Some valid ->
  (a = "move_next" /\ valid = []) \/
  (a = "move_distance" /\ valid = ["distance"]) \/
  (a = "move_angle" /\ valid = ["angle"]).
Proof.
  unfold VALID_ACTIONS. cbn [schema_get].
  destruct (String.eqb_spec "move_next" a) as [<- | _];
    [intros [= <-]; auto|].
  destruct (String.eqb_spec "move_distance" a) as [<- | _];
    [intros [= <-]; auto|].
  destruct (String.eqb_spec "move_angle" a) as [<- | _];
    [intros [= <-]; auto|].
  discriminate.
Qed.

(** [_receive] returns the decoded body or raises its one
    [ConnectionError]; nothing else comes out of it. *)
Lemma receive_total self (o : value) t sv :
  exists sv' tr,
    (exists v, _receive rt self o t sv = (Returns v, sv', tr)) \/
    _receive rt self o t sv
    = (Raises (ConnectionError receive_failure), sv', tr).
Proof.
  destruct o as [| b | n | name | l | d];
    try (exists sv, []; right; apply receive_not_str; discriminate).
  destruct (requests_get rt (url_of self t name) None sv) as [r sv'] eqn:Hget.
  exists sv', [HttpGet (url_of self t name) None].
  destruct r as [e | code [v|]].
  - right. now apply (receive_raises rt self name t sv Hget).
  - destruct (Z.leb_spec 300 code).
    + right. apply (receive_raises rt self name t sv Hget). now left.
    + left. exists v. now apply receive_returns with (code := code).
  - right. apply (receive_raises rt self name t sv Hget). now right.
Qed.

Lemma receive_never_blocks self (o : value) t :
  never_blocks (_receive rt self o t).
Proof.
  intros s s1 t1.
  destruct (receive_total self o t s) as (sv' & tr & [[v ->] | ->]);
    discriminate.
Qed.

(** C1.  What the code does with the action [None]: [step] raises a
    [TypeError] while it builds the message of the invalid-action error
    ([None + str]), before any request; the guard [action is not None]
    further down is never reached with [None].  Nothing is sent, no flag
    is queried and no observation is fetched.  [reset], which ends in
    [step(None)], therefore never returns a pair: every call of it
    raises. *)
Theorem step_None_raises_TypeError (self : BenchBot) :
  (forall kwargs sv,
      step rt self None kwargs sv = (Raises TypeError, sv, [])) /\
  (forall sv, exists e sv' tr, reset rt self sv = (Raises e, sv', tr)).
Proof.
  split; [intros kwargs sv; unfold step; now destruct (binds kwargs)|].
  intros sv. unfold reset.
  apply bind_tail_raises; [apply receive_never_blocks|]. intros dirty s1.
  apply bind_tail_raises; [apply never_blocks_lift|]. intros is_dirty s2.
  apply bind_tail_raises; [|intros _ s3; cbn; eauto].
  destruct (py_truthy is_dirty); [|apply never_blocks_ret].
  apply never_blocks_bind; [apply never_blocks_emit|]. intros _.
  apply never_blocks_bind; [apply receive_never_blocks|]. intros _.
  apply never_blocks_emit.
Qed.

(** C3.  What the code does when the number of keyword arguments differs
    from the number the schema requires, for every action of the schema:
    [step] raises a [TypeError], not the error that would state the
    action and the two counts, because the message is built by adding an
    integer to a str.  The action is not sent: the call leaves the
    supervisor as it was and emits no request. *)
Theorem step_wrong_count_raises_TypeError self a valid (kwargs : dict) sv :
  schema_get VALID_ACTIONS a = Some valid ->
  length kwargs <> length valid ->
  step rt self (Some a) kwargs sv = (Raises TypeError, sv, []).
Proof.
  intros Hschema Hlen. unfold step.
  destruct (binds kwargs); [|reflexivity]. cbn [negb VALID_ACTIONS_get].
  rewrite Hschema.
  destruct (Nat.eqb_spec (length kwargs) (length valid)); [contradiction|].
  reflexivity.
Qed.

Lemma str_in_In (x : string) (l : list string) :
  str_in x l = true <-> In x l.
Proof.
  unfold str_in. rewrite existsb_exists. split.
  - intros (y & Hy & E). apply String.eqb_eq in E. now subst.
  - intros H. exists x. split; [assumption | apply String.eqb_refl].
Qed.

(** C7, as the code has it.  For every action of the schema, [step] called
    with exactly the required number of keyword arguments, one of them with
    a name outside the required names of the action: when none of the
    keywords is named [self] or [action], the call raises the
    [RuntimeError] whose message names the valid arguments and then lists
    the offending names joined by [' ,'], and each offending name occurs in
    the message; when a keyword is named [self] or [action], Python cannot
    bind it and the call raises a [TypeError] before the body of [step]
    runs.  Either way nothing is sent: the supervisor is left as it was and
    no request is emitted. *)
Theorem step_invalid_argument_name self a valid (kwargs : dict) sv :
  schema_get VALID_ACTIONS a = Some valid ->
  length kwargs = length valid ->
  (exists name, In name (map fst kwargs) /\ ~ In name valid) ->
  (binds kwargs = true ->
   exists msg,
     step rt self (Some a) kwargs sv = (Raises (RuntimeError msg), sv, []) /\
     msg = "Valid arguments to " ++ a ++ " are: " ++ PyStr.join " ," valid ++
           ". The following arguments are invalid: " ++
           PyStr.join " ," (offending valid kwargs) /\
     (forall name, In name (map fst kwargs) -> ~ In name valid ->
        In name (offending valid kwargs) /\
        exists before rest, msg = before ++ name ++ rest)) /\
  (binds kwargs = false ->
   step rt self (Some a) kwargs sv = (Raises TypeError, sv, [])).
Proof.
  intros Hschema Hlen (bad & Hin & Hbad).
  split; [|intros Hbinds; unfold step; now rewrite Hbinds].
  intros Hbinds.
  eexists. split; [|split; [reflexivity|]].
  - unfold step. rewrite Hbinds. cbn [negb VALID_ACTIONS_get].
    rewrite Hschema, Hlen, Nat.eqb_refl.
    cbn [negb].
    destruct (schema_cases _ Hschema) as [[-> ->] | [[-> ->] | [-> ->]]].
    + destruct kwargs; [destruct Hin | discriminate].
    + destruct kwargs as [|[k v] [|? ?]]; try discriminate.
      destruct Hin as [<- | []]. cbn [fst] in Hbad.
      assert (E : str_in k ["distance"] = false).
      { destruct (str_in k ["distance"]) eqn:E; [|reflexivity].
        apply str_in_In in E. contradiction. }
      unfold offending. cbn [check_arguments map filter fst]. rewrite E.
      reflexivity.
    + destruct kwargs as [|[k v] [|? ?]]; try discriminate.
      destruct Hin as [<- | []]. cbn [fst] in Hbad.
      assert (E : str_in k ["angle"] = false).
      { destruct (str_in k ["angle"]) eqn:E; [|reflexivity].
        apply str_in_In in E. contradiction. }
      unfold offending. cbn [check_arguments map filter fst]. rewrite E.
      reflexivity.
  - intros name Hname Hnot.
    assert (Hoff : In name (offending valid kwargs)).
    { unfold offending. apply filter_In. split; [assumption|].
      destruct (str_in name valid) eqn:E; [|reflexivity].
      apply str_in_In in E. contradiction. }
    split; [assumption|].
    destruct (schema_cases _ Hschema) as [[-> ->] | [[-> ->] | [-> ->]]].
    + destruct kwargs; [destruct Hname | discriminate].
    + destruct kwargs as [|[k v] [|? ?]]; try discriminate.
      destruct Hname as [<- | []]. unfold offending in *.
      cbn [map filter fst] in *.
      destruct (negb (str_in k ["distance"])); [|destruct Hoff].
      exists ("Valid arguments to move_distance are: distance" ++
              ". The following arguments are invalid: "), EmptyString.
      rewrite append_empty_r. reflexivity.
    + destruct kwargs as [|[k v] [|? ?]]; try discriminate.
      destruct Hname as [<- | []]. unfold offending in *.
      cbn [map filter fst] in *.
      destruct (negb (str_in k ["angle"])); [|destruct Hoff].
      exists ("Valid arguments to move_angle are: angle" ++
              ". The following arguments are invalid: "), EmptyString.
      rewrite append_empty_r. reflexivity.
Qed.

End Validation.

(** ** The two flags: the result of a step and the available actions *)

Section Flags.

Context {S : Type} (rt : runtime S).

Lemma after_nil {A} (m : outcome A * S * list event) : after [] m = m.
Proof. now destruct m as [[r s] t]. Qed.

Lemma bind_lift_inr {A B} (a : A) (k : A -> M S B) s :
  bind (lift (inr a)) k s = k a s.
Proof. unfold bind, lift, ret. apply after_nil. Qed.

(** C5.  The result of a step is a function of the two flags, asked for in
    the order [is_collided], [is_finished]: COLLISION when the collision
    flag is true, whatever the other flag is (it is then not asked for);
    otherwise FINISHED when the finished flag is true, and SUCCESS when
    neither is.  The requests emitted show the order. *)
Theorem derive_action_result_collision_first
    self sv code1 body1 sv1 collided code2 body2 sv2 finished :
  requests_get rt (url_of self SIMULATOR "is_collided") None sv
  = (Response code1 (Some body1), sv1) ->
  (code1 < 300)%Z ->
  py_getitem body1 "is_collided" = inr collided ->
  requests_get rt (url_of self STATUS "is_finished") None sv1
  = (Response code2 (Some body2), sv2) ->
  (code2 < 300)%Z ->
  py_getitem body2 "is_finished" = inr finished ->
  derive_action_result rt self sv
  = if py_truthy collided then
      (Returns COLLISION, sv1,
       [HttpGet (url_of self SIMULATOR "is_collided") None])
    else
      (Returns (if py_truthy finished then FINISHED else SUCCESS), sv2,
       [HttpGet (url_of self SIMULATOR "is_collided") None;
        HttpGet (url_of self STATUS "is_finished") None]).
Proof.
  intros Hc Hc1 Hcv Hf Hf1 Hfv. unfold derive_action_result.
  rewrite (bind_returns _ _ _ (receive_returns rt self _ _ _ Hc Hc1)).
  rewrite Hcv, bind_lift_inr.
  destruct (py_truthy collided); [reflexivity|].
  rewrite (bind_returns _ _ _ (receive_returns rt self _ _ _ Hf Hf1)).
  rewrite Hfv, bind_lift_inr.
  destruct (py_truthy finished); reflexivity.
Qed.

(** C6.  Every access of [actions], in whatever state the supervisor is,
    asks the supervisor for the collision flag, and when that is false for
    the finished flag; the client keeps nothing from an earlier access.
    The result is the empty list when the collision flag or the finished
    flag is true, and otherwise the list the supervisor declares, fetched
    at this access as well. *)
Theorem actions_queries_live_flags
    self sv code1 body1 sv1 collided code2 body2 sv2 finished
    code3 declared sv3 :
  requests_get rt (url_of self SIMULATOR "is_collided") None sv
  = (Response code1 (Some body1), sv1) ->
  (code1 < 300)%Z ->
  py_getitem body1 "is_collided" = inr collided ->
  requests_get rt (url_of self STATUS "is_finished") None sv1
  = (Response code2 (Some body2), sv2) ->
  (code2 < 300)%Z ->
  py_getitem body2 "is_finished" = inr finished ->
  requests_get rt (url_of self CONFIG "actions") None sv2
  = (Response code3 (Some declared), sv3) ->
  (code3 < 300)%Z ->
  actions rt self sv
  = if py_truthy collided then
      (Returns (PList []), sv1,
       [HttpGet (url_of self SIMULATOR "is_collided") None])
    else if py_truthy finished then
      (Returns (PList []), sv2,
       [HttpGet (url_of self SIMULATOR "is_collided") None;
        HttpGet (url_of self STATUS "is_finished") None])
    else
      (Returns declared, sv3,
       [HttpGet (url_of self SIMULATOR "is_collided") None;
        HttpGet (url_of self STATUS "is_finished") None;
        HttpGet (url_of self CONFIG "actions") None]).
Proof.
  intros Hc Hc1 Hcv Hf Hf1 Hfv Ha Ha1. unfold actions.
  rewrite (bind_returns _ _ _ (receive_returns rt self _ _ _ Hc Hc1)).
  rewrite Hcv, bind_lift_inr.
  destruct (py_truthy collided); [reflexivity|].
  rewrite (bind_returns _ _ _ (receive_returns rt self _ _ _ Hf Hf1)).
  rewrite Hfv, bind_lift_inr.
  destruct (py_truthy finished); [reflexivity|].
  rewrite (receive_returns rt self _ _ _ Ha Ha1). reflexivity.
Qed.

End Flags.

(** ** Splitting the task name *)

Lemma split_not_nil (c : ascii) (s : string) : PyStr.split c s <> [].
Proof.
  destruct s as [|a s]; cbn; [discriminate|].
  destruct (Ascii.eqb a c); [discriminate|].
  destruct (PyStr.split c s); discriminate.
Qed.

Lemma join_cons (sep x : string) (l : list string) :
  l <> [] -> PyStr.join sep (x :: l) = x ++ sep ++ PyStr.join sep l.
Proof.
  destruct l; [contradiction | reflexivity].
Qed.

Lemma join_head (sep : string) (a : ascii) (f : string) (fs : list string) :
  PyStr.join sep (String a f :: fs) = String a (PyStr.join sep (f :: fs)).
Proof.
  destruct fs; reflexivity.
Qed.

(** Joining the fields with the separator gives the string back. *)
Lemma join_split (c : ascii) (s : string) :
  PyStr.join (String c EmptyString) (PyStr.split c s) = s.
Proof.
  induction s as [|a s IH]; [reflexivity|].
  cbn [PyStr.split].
  destruct (Ascii.eqb_spec a c) as [-> | Hne].
  - rewrite join_cons by apply split_not_nil. now rewrite IH.
  - pose proof (split_not_nil c s) as Hnil.
    destruct (PyStr.split c s) as [|f fs]; [contradiction|].
    now rewrite join_head, IH.
Qed.

(** No field holds the separator. *)
Lemma split_fields_clean (c : ascii) (s : string) :
  Forall (fun field => PyStr.count c field = 0) (PyStr.split c s).
Proof.
  induction s as [|a s IH]; [repeat constructor|].
  cbn [PyStr.split].
  destruct (Ascii.eqb a c) eqn:E.
  - constructor; [reflexivity | assumption].
  - destruct (PyStr.split c s) as [|f fs]; [repeat constructor; cbn; now rewrite E|].
    inversion IH as [|? ? Hf Hfs]; subst.
    constructor; [cbn; now rewrite E | assumption].
Qed.

(** One field more than there are separators. *)
Lemma split_length (c : ascii) (s : string) :
  length (PyStr.split c s) = Datatypes.S (PyStr.count c s).
Proof.
  induction s as [|a s IH]; [reflexivity|].
  cbn [PyStr.split PyStr.count].
  destruct (Ascii.eqb a c).
  - cbn. now rewrite IH.
  - pose proof (split_not_nil c s) as Hnil.
    destruct (PyStr.split c s) as [|f fs]; [contradiction|].
    cbn in *. assumption.
Qed.

Section TaskDetails.

Context {S : Type} (rt : runtime S).

Lemma dict_of_task_items (vals : list value) :
  dict_of_items (combine task_keys vals) = combine task_keys vals.
Proof.
  destruct vals as [|v1 [|v2 [|v3 rest]]]; reflexivity.
Qed.

(** C10.  [task_details] splits the task name at each [':'] and pairs the
    fields in order with the keys [type], [control_mode],
    [localisation_mode].  The fields are those of the name: joined by
    [':'] they give it back, none holds a [':'], and there is one more of
    them than colons.  With fewer than three fields the dictionary holds
    only the keys of the fields present (at least [type]); fields after
    the third are dropped; no error is raised for either. *)
Theorem task_details_pairs_fields self sv code name sv' :
  requests_get rt (url_of self CONFIG "task_name") None sv
  = (Response code (Some (PStr name)), sv') ->
  (code < 300)%Z ->
  exists fields details,
    fields = PyStr.split ":"%char name /\
    PyStr.join ":" fields = name /\
    Forall (fun field => PyStr.count ":"%char field = 0) fields /\
    length fields = Datatypes.S (PyStr.count ":"%char name) /\
    task_details rt self sv
    = (Returns details, sv',
       [HttpGet (url_of self CONFIG "task_name") None]) /\
    details = combine task_keys (map PStr fields) /\
    map fst details = firstn (length fields) task_keys /\
    map snd details = map PStr (firstn 3 fields).
Proof.
  intros Hget Hcode.
  exists (PyStr.split ":"%char name),
         (combine task_keys (map PStr (PyStr.split ":"%char name))).
  split; [reflexivity|].
  split; [apply (join_split ":"%char)|].
  split; [apply split_fields_clean|].
  split; [apply split_length|].
  split.
  - unfold task_details.
    rewrite (bind_returns _ _ _ (receive_returns rt self _ _ _ Hget Hcode)).
    rewrite bind_lift_inr.
    change (combine _ (map PStr ?f)) with (combine task_keys (map PStr f)).
    now rewrite dict_of_task_items.
  - split; [reflexivity|].
    destruct (PyStr.split ":"%char name) as [|f1 [|f2 [|f3 rest]]];
      split; cbn; rewrite ?firstn_nil; reflexivity.
Qed.

End TaskDetails.

(** ** The observations of a step *)

Section Observations.

Context {S : Type} (rt : runtime S).

Lemma check_arguments_ok a valid (kwargs : dict) :
  (forall name, In name (map fst kwargs) -> In name valid) ->
  check_arguments a valid kwargs = inr tt.
Proof.
  induction kwargs as [|[k v] rest IH]; intros Hall; [reflexivity|].
  cbn [check_arguments].
  assert (E : str_in k valid = true).
  { apply str_in_In. apply Hall. now left. }
  rewrite E. cbn. apply IH. intros name Hin. apply Hall. now right.
Qed.

(** Storing under a new key appends. *)
Lemma dict_set_fresh (d : dict) k v :
  ~ In k (map fst d) -> dict_set d k v = (d ++ [(k, v)])%list.
Proof.
  induction d as [|[k' v'] d IH]; intros Hfresh; [reflexivity|].
  cbn [dict_set]. cbn in Hfresh.
  destruct (String.eqb_spec k' k) as [-> | _]; [tauto|].
  rewrite IH by tauto. reflexivity.
Qed.

Lemma fetch_raw_os_serves self keys : forall raws acc s s',
  length raws = length keys ->
  NoDup (map fst acc ++ keys) ->
  serves rt s (combine (map (url_of self CONNECTION) keys) raws) s' ->
  fetch_raw_os rt self (map PStr keys) acc s
  = (Returns (acc ++ combine keys raws)%list, s', fetches self keys).
Proof.
  induction keys as [|k keys IH]; intros raws acc s s' Hlen Hnd Hserves.
  - cbn in *. inversion Hserves; subst. now rewrite app_nil_r.
  - destruct raws as [|raw raws]; [discriminate|].
    cbn [map combine] in Hserves.
    inversion Hserves as [|? s1 ? ? ? code ? Hget Hcode Hrest]; subst.
    cbn [map fetch_raw_os].
    rewrite (bind_returns _ _ _ (receive_returns rt self _ _ _ Hget Hcode)).
    assert (Hfresh : ~ In k (map fst acc)).
    { intros Hin. apply NoDup_remove_2 in Hnd. apply Hnd.
      apply in_or_app. now left. }
    rewrite dict_set_fresh by exact Hfresh.
    rewrite (IH raws (acc ++ [(k, raw)])%list s1 s').
    + cbn. now rewrite <- app_assoc.
    + now injection Hlen.
    + rewrite map_app. cbn. rewrite <- app_assoc. exact Hnd.
    + exact Hrest.
Qed.

Lemma apply_callbacks_observed reg items : forall outs acc,
  Forall2 (fun kr out => observed reg (fst kr) (snd kr) out) items outs ->
  NoDup (map fst acc ++ map fst items) ->
  apply_callbacks reg items acc
  = inr (acc ++ combine (map fst items) outs)%list.
Proof.
  induction items as [|[k raw] items IH]; intros outs acc Hobs Hnd.
  - inversion Hobs; subst. cbn. now rewrite app_nil_r.
  - inversion Hobs as [|? out ? outs' Hk Hrest]; subst.
    cbn [apply_callbacks map fst combine] in *.
    unfold observed in Hk. cbn [fst snd] in Hk.
    assert (Hfresh : ~ In k (map fst acc)).
    { intros Hin. apply NoDup_remove_2 in Hnd. apply Hnd.
      apply in_or_app. now left. }
    assert (Hnd' : NoDup (map fst (acc ++ [(k, out)]) ++ map fst items)).
    { rewrite map_app. cbn. rewrite <- app_assoc. exact Hnd. }
    destruct (callbacks_get reg k) as [e | [f |]]; [contradiction | |];
      cbn [ebind].
    + rewrite Hk. cbn [ebind]. rewrite dict_set_fresh by exact Hfresh.
      rewrite (IH outs' _ Hrest Hnd'). now rewrite <- app_assoc.
    + subst out. rewrite dict_set_fresh by exact Hfresh.
      rewrite (IH outs' _ Hrest Hnd'). now rewrite <- app_assoc.
Qed.

Lemma map_fst_combine {A B} (l : list A) (l' : list B) :
  length l' = length l -> map fst (combine l l') = l.
Proof.
  revert l'. induction l as [|x l IH]; intros [|y l'] Hlen;
    try discriminate; [reflexivity|].
  cbn. f_equal. apply IH. now injection Hlen.
Qed.

End Observations.

(** ** The handshake at startup *)

Section Startup.

Context {S : Type} (rt : runtime S).

(** C8.  When the probe of the root route at startup cannot reach the
    supervisor, [start] raises a [ConnectionError], the classified error
    of the transport and no other class, and its message holds the
    configured address of the supervisor.  The probe is made once and
    nothing else is asked for. *)
Theorem start_unreachable_names_address (fuel : nat) self sv e sv' :
  requests_get rt (url_of self EXPLICIT "/") None sv = (Unreachable e, sv') ->
  exists msg before rest,
    start rt fuel self sv
    = (Raises (ConnectionError msg), sv',
       [ Print "Waiting to establish connection to a running supervisor ... ";
         HttpGet (url_of self EXPLICIT "/") None ]) /\
    msg = before ++ supervisor_address self ++ rest.
Proof.
  intros Hget.
  exists ("Could not find a BenchBot supervisor @ '" ++
          supervisor_address self ++ "'. " ++ "Are you sure it is available?"),
         "Could not find a BenchBot supervisor @ '",
         ("'. " ++ "Are you sure it is available?").
  split; [|reflexivity].
  unfold start. unfold bind at 1. cbn [emit].
  unfold bind at 1, try_except.
  rewrite (receive_raises rt self "/" EXPLICIT sv Hget I).
  reflexivity.
Qed.

End Startup.

(** ** The theorems at work on the test supervisor *)

Module Runs.

Import Stub.

(** A 404 and a host that is down look the same to the caller. *)
Lemma transport_failure_witness :
  _receive rt (bot []) (PStr "missing") CONFIG (episode false false)
  = (Raises (ConnectionError receive_failure), episode false false,
     [HttpGet "http://benchbot_supervisor:10000/config/missing" None]) /\
  _send rt (bot []) "missing" (Some []) CONFIG (episode false false)
  = (Raises (ConnectionError (send_failure rt "missing" CONFIG [])),
     episode false false,
     [HttpGet "http://benchbot_supervisor:10000/config/missing" (Some [])]).
Proof.
  apply (@transport_failure_is_ConnectionError _ rt (bot []) "missing" CONFIG
           [] (episode false false)
           (Response 404 None) (episode false false)
           (Response 404 None) (episode false false)).
  - reflexivity.
  - cbn. lia.
  - reflexivity.
  - cbn. lia.
Defined.

Lemma step_wrong_count_witness :
  step rt (bot []) (Some "move_next") [("distance", PInt 1)]
    (episode false false)
  = (Raises TypeError, episode false false, []).
Proof.
  apply (@step_wrong_count_raises_TypeError _ rt (bot []) "move_next" []).
  - reflexivity.
  - discriminate.
Defined.

Lemma step_invalid_argument_name_witness :
  exists msg,
    step rt (bot []) (Some "move_distance") [("dist", PInt 1)]
      (episode false false)
    = (Raises (RuntimeError msg), episode false false, []) /\
    msg = "Valid arguments to move_distance are: distance" ++
          ". The following arguments are invalid: dist".
Proof.
  destruct (@step_invalid_argument_name _ rt (bot []) "move_distance"
              ["distance"] [("dist", PInt 1)] (episode false false))
    as [Hbound _].
  - reflexivity.
  - reflexivity.
  - exists "dist". split; [now left|]. intros [H | []]. discriminate.
  - destruct (Hbound eq_refl) as (msg & Hstep & Hmsg & _).
    exists msg. split; [exact Hstep | exact Hmsg].
Defined.

(** Both flags true: the collision wins, and the other flag is not asked
    for. *)
Lemma derive_action_result_witness :
  derive_action_result rt (bot []) (episode true true)
  = (Returns COLLISION, episode true true,
     [HttpGet "http://benchbot_supervisor:10000/simulator/is_collided" None]).
Proof.
  apply (@derive_action_result_collision_first _ rt (bot [])
           (episode true true)
           200%Z (flag "is_collided" true) (episode true true) (PBool true)
           200%Z (flag "is_finished" true) (episode true true) (PBool true));
    first [reflexivity | lia].
Defined.

(** The same client gets the answer of the moment: nothing while the task
    is finished, the declared list while it is not. *)
Lemma actions_witness :
  actions rt (bot []) (episode false true)
  = (Returns (PList []), episode false true,
     [HttpGet "http://benchbot_supervisor:10000/simulator/is_collided" None;
      HttpGet "http://benchbot_supervisor:10000/status/is_finished" None]) /\
  actions rt (bot []) (episode false false)
  = (Returns (PList [PStr "move_next"; PStr "move_distance"; PStr "move_angle"]),
     episode false false,
     [HttpGet "http://benchbot_supervisor:10000/simulator/is_collided" None;
      HttpGet "http://benchbot_supervisor:10000/status/is_finished" None;
      HttpGet "http://benchbot_supervisor:10000/config/actions" None]).
Proof.
  split.
  - apply (@actions_queries_live_flags _ rt (bot []) (episode false true)
             200%Z (flag "is_collided" false) (episode false true) (PBool false)
             200%Z (flag "is_finished" true) (episode false true) (PBool true)
             200%Z
             (PList [PStr "move_next"; PStr "move_distance"; PStr "move_angle"])
             (episode false true));
      first [reflexivity | lia].
  - apply (@actions_queries_live_flags _ rt (bot []) (episode false false)
             200%Z (flag "is_collided" false) (episode false false) (PBool false)
             200%Z (flag "is_finished" false) (episode false false) (PBool false)
             200%Z
             (PList [PStr "move_next"; PStr "move_distance"; PStr "move_angle"])
             (episode false false));
      first [reflexivity | lia].
Defined.

Lemma task_details_witness :
  exists details,
    task_details rt (bot []) short_task
    = (Returns details, short_task,
       [HttpGet "http://benchbot_supervisor:10000/config/task_name" None]) /\
    details = [("type", PStr "semantic_slam")].
Proof.
  destruct (@task_details_pairs_fields _ rt (bot []) short_task 200%Z
              "semantic_slam" short_task)
    as (fields & details & Hfields & _ & _ & _ & Hrun & Hdetails & _).
  - reflexivity.
  - lia.
  - exists details. split; [exact Hrun|]. now rewrite Hdetails, Hfields.
Defined.

Lemma start_unreachable_witness :
  exists msg before rest,
    start rt 5 (bot []) down
    = (Raises (ConnectionError msg), down,
       [ Print "Waiting to establish connection to a running supervisor ... ";
         HttpGet "http://benchbot_supervisor:10000//" None ]) /\
    msg = before ++ "http://benchbot_supervisor:10000/" ++ rest.
Proof.
  apply (@start_unreachable_names_address _ rt 5 (bot []) down
           (OtherError "ConnectTimeout") down).
  reflexivity.
Defined.


End Runs.

(** ** More on the validation and the sending of an action *)

Section Sending.

Context {S : Type} (rt : runtime S).

Lemma bind_assoc {A B C} (c : M S A) (k : A -> M S B) (h : B -> M S C) s :
  bind (bind c k) h s = bind c (fun a => bind (k a) h) s.
Proof.
  unfold bind. destruct (c s) as [[[a | e |] s1] t1]; try reflexivity.
  destruct (k a s1) as [[[b | e |] s2] t2]; cbn; try reflexivity.
  destruct (h b s2) as [[r s3] t3]. cbn. now rewrite app_assoc.
Qed.

(** Keywords with names of the schema do not collide with the parameters
    of [step]. *)
Lemma valid_names_bind a valid (kwargs : dict) :
  schema_get VALID_ACTIONS a = Some valid ->
  (forall name, In name (map fst kwargs) -> In name valid) ->
  binds kwargs = true.
Proof.
  intros Hschema Hnames. unfold binds.
  assert (Hno : forall name, name = "self" \/ name = "action" ->
                             str_in name (map fst kwargs) = false).
  { intros name Hname.
    destruct (str_in name (map fst kwargs)) eqn:E; [|reflexivity].
    apply str_in_In, Hnames in E.
    destruct (schema_cases _ Hschema) as [[_ ->] | [[_ ->] | [_ ->]]];
      destruct Hname as [-> | ->]; cbn in E; intuition discriminate. }
  now rewrite !Hno by auto.
Qed.

(** A call whose keyword names are the required names gets past the
    validation. *)
Lemma step_validated self a valid (kwargs : dict) sv :
  schema_get VALID_ACTIONS a = Some valid ->
  map fst kwargs = valid ->
  step rt self (Some a) kwargs sv = perform rt self a kwargs sv.
Proof.
  intros Hschema Hnames. unfold step.
  rewrite (valid_names_bind a kwargs Hschema)
    by (intros name Hin; now rewrite <- Hnames).
  cbn [negb VALID_ACTIONS_get]. rewrite Hschema.
  assert (Hlen : length kwargs = length valid)
    by (rewrite <- Hnames; now rewrite length_map).
  rewrite Hlen, Nat.eqb_refl. cbn [negb].
  rewrite check_arguments_ok by (intros name Hin; now rewrite <- Hnames).
  rewrite bind_lift_inr. unfold perform. now rewrite bind_assoc.
Qed.

(** [_send] makes its one request and returns or raises its
    [ConnectionError]. *)
Lemma send_total self name t (data : dict) sv :
  exists sv1,
    _send rt self name (Some data) t sv
    = (Returns tt, sv1, [HttpGet (url_of self t name) (Some data)]) \/
    _send rt self name (Some data) t sv
    = (Raises (ConnectionError (send_failure rt name t data)), sv1,
       [HttpGet (url_of self t name) (Some data)]).
Proof.
  destruct (requests_get rt (url_of self t name) (Some data) sv)
    as [r sv1] eqn:Hget.
  exists sv1. destruct r as [e | code body].
  - right. now apply (send_raises rt self name t data sv Hget).
  - destruct (Z.leb_spec 300 code).
    + right. now apply (send_raises rt self name t data sv Hget).
    + left. now apply send_returns with (code := code) (body := body).
Qed.

End Sending.

Section StepEdges.

Context {S : Type} (rt : runtime S).

Lemma perform_send_raises self a (kwargs : dict) sv r sv1 :
  requests_get rt (url_of self CONNECTION a) (Some kwargs) sv = (r, sv1) ->
  failed r ->
  perform rt self a kwargs sv
  = (Raises (ConnectionError (send_failure rt a CONNECTION kwargs)), sv1,
     sending rt self a kwargs).
Proof.
  intros Hget Hbad. unfold perform, bind at 1. cbn [emit].
  assert (Hbad' : match r with
                  | Unreachable _ => True
                  | Response code _ => (300 <= code)%Z
                  end) by (destruct r; exact Hbad).
  rewrite (bind_raises _ _ _
             (send_raises rt self a CONNECTION kwargs sv Hget Hbad')).
  reflexivity.
Qed.

Lemma perform_sent self a (kwargs : dict) sv code body sv1 :
  requests_get rt (url_of self CONNECTION a) (Some kwargs) sv
  = (Response code body, sv1) ->
  (code < 300)%Z ->
  perform rt self a kwargs sv
  = after (sending rt self a kwargs)
      (bind (derive_action_result rt self)
         (fun action_result =>
            bind (observations rt self) (fun keys =>
            bind (lift (py_iter keys)) (fun keys =>
            bind (fetch_raw_os rt self keys []) (fun raw_os =>
            bind (lift (apply_callbacks (_connection_callbacks self) raw_os []))
                 (fun os => ret (os, action_result)))))) sv1).
Proof.
  intros Hget Hcode. unfold perform, bind at 1. cbn [emit].
  rewrite (bind_returns _ _ _
             (@send_returns _ rt self a CONNECTION kwargs sv code body sv1
                Hget Hcode)).
  match goal with |- after ?t1 (after ?t2 ?m) = _ =>
    destruct m as [[r s2] t3] end.
  reflexivity.
Qed.

(** X1.  An action whose name is none of [move_next], [move_distance],
    [move_angle], called with keywords that Python can bind (none named
    [self] or [action]), makes [step] raise the [RuntimeError] that names
    the action and lists the three valid names; the supervisor is not asked
    anything and nothing is printed.  With a keyword named [self] or
    [action] the call raises a [TypeError] instead, and nothing is asked or
    printed either. *)
Theorem step_unknown_action_raises self a (kwargs : dict) sv :
  a <> "move_next" -> a <> "move_distance" -> a <> "move_angle" ->
  step rt self (Some a) kwargs sv
  = if binds kwargs
    then (Raises (RuntimeError (invalid_action_message a)), sv, [])
    else (Raises TypeError, sv, []).
Proof.
  intros H1 H2 H3. unfold step.
  destruct (binds kwargs); [|reflexivity].
  cbn [negb VALID_ACTIONS_get schema_get VALID_ACTIONS].
  destruct (String.eqb_spec "move_next" a); [congruence|].
  destruct (String.eqb_spec "move_distance" a); [congruence|].
  destruct (String.eqb_spec "move_angle" a); [congruence|].
  unfold invalid_action_message. cbn. now rewrite !append_assoc.
Qed.

(** X2.  [step] sends an action exactly when the names of its keyword
    arguments are the names the schema requires for it: then the notice and
    the request of the action come first in what the step does; in every
    other case the step raises at once, the supervisor is left as it was and
    nothing is emitted. *)
Theorem step_sends_exactly_the_valid_calls self a (kwargs : dict) sv :
  ((exists valid,
       schema_get VALID_ACTIONS a = Some valid /\ map fst kwargs = valid) ->
   exists r sv' tr,
     step rt self (Some a) kwargs sv
     = (r, sv', (sending rt self a kwargs ++ tr)%list)) /\
  (~ (exists valid,
         schema_get VALID_ACTIONS a = Some valid /\ map fst kwargs = valid) ->
   exists e, step rt self (Some a) kwargs sv = (Raises e, sv, [])).
Proof.
  split.
  - intros (valid & Hschema & Hnames).
    rewrite (@step_validated _ rt self a valid kwargs sv Hschema Hnames).
    destruct (requests_get rt (url_of self CONNECTION a) (Some kwargs) sv)
      as [r sv1] eqn:Hget.
    assert (Hcases : failed r \/
              exists code body, r = Response code body /\ (code < 300)%Z).
    { destruct r as [e | code body]; [left; exact I|].
      destruct (Z.leb_spec 300 code); [left; assumption|].
      right. now exists code, body. }
    destruct Hcases as [Hbad | (code & body & -> & Hcode)].
    + rewrite (@perform_send_raises self a kwargs sv r sv1 Hget Hbad).
      eexists _, _, []. now rewrite app_nil_r.
    + rewrite (@perform_sent self a kwargs sv code body sv1 Hget Hcode).
      match goal with |- context [after _ ?m] =>
        destruct m as [[r s2] t2] end.
      cbn [after]. eauto.
  - intros Hnot. unfold step.
    destruct (binds kwargs); [|now exists TypeError]. cbn [negb VALID_ACTIONS_get].
    destruct (schema_get VALID_ACTIONS a) as [valid|] eqn:Hschema.
    2: { cbn. eauto. }
    destruct (Nat.eqb_spec (length kwargs) (length valid)) as [Hlen | Hlen];
      cbn [negb]; [|cbn; eauto].
    destruct (schema_cases _ Hschema) as [[-> ->] | [[-> ->] | [-> ->]]].
    + destruct kwargs; [|discriminate]. exfalso. apply Hnot. now exists [].
    + destruct kwargs as [|[k v] [|? ?]]; try discriminate.
      destruct (String.eqb_spec k "distance") as [-> | Hk].
      * exfalso. apply Hnot. now exists ["distance"].
      * cbn [check_arguments str_in existsb]. rewrite (proj2 (String.eqb_neq _ _) Hk).
        cbn. eauto.
    + destruct kwargs as [|[k v] [|? ?]]; try discriminate.
      destruct (String.eqb_spec k "angle") as [-> | Hk].
      * exfalso. apply Hnot. now exists ["angle"].
      * cbn [check_arguments str_in existsb]. rewrite (proj2 (String.eqb_neq _ _) Hk).
        cbn. eauto.
Qed.

(** X3.  When the request of a valid action fails (the transport raises or
    the status is 300 or more), the step ends there with the
    [ConnectionError] of [_send]: no flag is asked for and no observation is
    fetched. *)
Theorem step_send_failure_aborts self a valid (kwargs : dict) sv r sv1 :
  schema_get VALID_ACTIONS a = Some valid ->
  map fst kwargs = valid ->
  requests_get rt (url_of self CONNECTION a) (Some kwargs) sv = (r, sv1) ->
  failed r ->
  step rt self (Some a) kwargs sv
  = (Raises (ConnectionError (send_failure rt a CONNECTION kwargs)), sv1,
     sending rt self a kwargs).
Proof.
  intros Hschema Hnames Hget Hbad.
  rewrite (@step_validated _ rt self a valid kwargs sv Hschema Hnames).
  now apply perform_send_raises with (r := r).
Qed.

(** X4.  A flag answer that is a dict without the key of the flag is not an
    error of the transport: the [KeyError] of the lookup leaves [step] as it
    is, after the action was sent, and the observations are not fetched.
    With the collision flag in order and false, the same holds for the
    finished flag. *)
Theorem step_flag_without_key_raises_KeyError
    self a valid (kwargs : dict) sv code body sv1 code1 d1 sv2 :
  schema_get VALID_ACTIONS a = Some valid ->
  map fst kwargs = valid ->
  requests_get rt (url_of self CONNECTION a) (Some kwargs) sv
  = (Response code body, sv1) ->
  (code < 300)%Z ->
  requests_get rt (url_of self SIMULATOR "is_collided") None sv1
  = (Response code1 (Some (PDict d1)), sv2) ->
  (code1 < 300)%Z ->
  (dict_get d1 "is_collided" = None ->
   step rt self (Some a) kwargs sv
   = (Raises (KeyError "is_collided"), sv2,
      (sending rt self a kwargs ++
       [HttpGet (url_of self SIMULATOR "is_collided") None])%list)) /\
  (forall collided code2 d2 sv3,
      dict_get d1 "is_collided" = Some collided ->
      py_truthy collided = false ->
      requests_get rt (url_of self STATUS "is_finished") None sv2
      = (Response code2 (Some (PDict d2)), sv3) ->
      (code2 < 300)%Z ->
      dict_get d2 "is_finished" = None ->
      step rt self (Some a) kwargs sv
      = (Raises (KeyError "is_finished"), sv3,
         (sending rt self a kwargs ++
          [HttpGet (url_of self SIMULATOR "is_collided") None;
           HttpGet (url_of self STATUS "is_finished") None])%list)).
Proof.
  intros Hschema Hnames Hsend Hcode Hc Hc1.
  rewrite (@step_validated _ rt self a valid kwargs sv Hschema Hnames).
  rewrite (@perform_sent self a kwargs sv code body sv1 Hsend Hcode).
  split.
  - intros Hmiss.
    assert (Hd : derive_action_result rt self sv1
                 = (Raises (KeyError "is_collided"), sv2,
                    [HttpGet (url_of self SIMULATOR "is_collided") None])).
    { unfold derive_action_result.
      rewrite (bind_returns _ _ _ (receive_returns rt self _ _ _ Hc Hc1)).
      cbn [py_getitem]. rewrite Hmiss. reflexivity. }
    rewrite (bind_raises _ _ _ Hd). reflexivity.
  - intros collided code2 d2 sv3 Hcv Hfalse Hf Hf1 Hmiss.
    assert (Hd : derive_action_result rt self sv1
                 = (Raises (KeyError "is_finished"), sv3,
                    [HttpGet (url_of self SIMULATOR "is_collided") None;
                     HttpGet (url_of self STATUS "is_finished") None])).
    { unfold derive_action_result.
      rewrite (bind_returns _ _ _ (receive_returns rt self _ _ _ Hc Hc1)).
      cbn [py_getitem]. rewrite Hcv, bind_lift_inr, Hfalse.
      rewrite (bind_returns _ _ _ (receive_returns rt self _ _ _ Hf Hf1)).
      cbn [py_getitem]. rewrite Hmiss. reflexivity. }
    rewrite (bind_raises _ _ _ Hd). reflexivity.
Qed.

End StepEdges.

(** ** More on addresses and on the handshake *)

Section Handshake.

Context {S : Type} (rt : runtime S).

(** X5.  A route name that is no str (the default [None], a number in the
    list of observation keys) makes [_build_address] raise a [TypeError];
    inside [_receive] the bare [except] turns it into the [ConnectionError]
    of a failed exchange, although no request was made. *)
Theorem receive_masks_route_name_error self (o : value) (t : RouteType) sv :
  (forall k, o <> PStr k) ->
  _build_address self o (Member t) = inl TypeError /\
  _receive rt self o t sv = (Raises (ConnectionError receive_failure), sv, []).
Proof.
  intros Ho. split.
  - unfold _build_address.
    destruct o; try (destruct t; reflexivity). now destruct (Ho s).
  - unfold _receive, try_except, bind, lift, _build_address.
    destruct o; try (destruct t; reflexivity). now destruct (Ho s).
Qed.

(** X6.  The address of the supervisor may be given with or without its
    final slash: a client whose address lacks it builds the same addresses,
    and raises the same errors, as the client whose address has it. *)
Theorem build_address_final_slash_optional
    (self1 self2 : BenchBot) (route_name : value) (route_type : route_type_arg) :
  PyStr.endswith (supervisor_address self1) "/" = false ->
  supervisor_address self2 = supervisor_address self1 ++ "/" ->
  _build_address self2 route_name route_type
  = _build_address self1 route_name route_type.
Proof.
  intros Hno Hslash. unfold _build_address. rewrite Hno, Hslash.
  assert (E : PyStr.endswith (supervisor_address self1 ++ "/") "/" = true)
    by (apply endswith_suffix; now eexists).
  rewrite E, append_empty_r. reflexivity.
Qed.

(** X7.  The probe of [start] asks for the address of the supervisor
    followed by two slashes, and needs a JSON answer: a supervisor that is
    reachable but answers the probe with a failure status, or with a body
    that is no JSON, is reported by the same [ConnectionError] as one that
    cannot be found, and [start] asks nothing else. *)
Theorem start_probe_needs_json (fuel : nat) self sv code body sv1 :
  requests_get rt (url_of self EXPLICIT "/") None sv
  = (Response code body, sv1) ->
  (300 <= code)%Z \/ body = None ->
  (exists p, url_of self EXPLICIT "/" = p ++ "//") /\
  start rt fuel self sv
  = (Raises (ConnectionError (not_found_message self)), sv1,
     [ Print "Waiting to establish connection to a running supervisor ... ";
       HttpGet (url_of self EXPLICIT "/") None ]).
Proof.
  intros Hget Hbad. split.
  - destruct (ensure_trailing_slash_ends (supervisor_address self)) as [p Hp].
    exists p. unfold url_of, resolve. rewrite Hp. cbn [namespace_prefix].
    now rewrite append_assoc.
  - unfold start. unfold bind at 1. cbn [emit].
    unfold bind at 1, try_except.
    rewrite (receive_raises rt self "/" EXPLICIT sv Hget Hbad).
    reflexivity.
Qed.

End Handshake.

(** ** The registry that [start] builds *)

Section Registry.

Context {S : Type} (rt : runtime S).

Lemma rsplit1_without (c : ascii) (s : string) :
  PyStr.count c s = 0 -> PyStr.rsplit1 c s = [s].
Proof.
  induction s as [|a s IH]; [reflexivity|].
  cbn [PyStr.count PyStr.rsplit1].
  destruct (Ascii.eqb a c); [discriminate|].
  intros H. now rewrite IH by exact H.
Qed.

Lemma rsplit1_last (c : ascii) (m f : string) :
  PyStr.count c f = 0 -> PyStr.rsplit1 c (m ++ String c f) = [m; f].
Proof.
  intros Hf. induction m as [|a m IH].
  - cbn [append PyStr.rsplit1]. rewrite rsplit1_without by exact Hf.
    now rewrite Ascii.eqb_refl.
  - cbn [append PyStr.rsplit1]. now rewrite IH.
Qed.

(** X8.  A connection entry that declares [callback_api] as a dotted path
    is resolved by cutting the path at its last dot: what is before the dot
    names the module, imported under [benchbot_api.], and what is after it
    names the function taken from the module.  A failing import gives the
    error of the import, a module without the function an
    [AttributeError]. *)
Theorem attempt_connection_imports_cuts_at_last_dot (d : dict) (m f : string) :
  dict_get d "callback_api" = Some (PStr (m ++ "." ++ f)) ->
  PyStr.count "."%char f = 0 ->
  _attempt_connection_imports rt (PDict d)
  = match import_module rt ("benchbot_api." ++ m) with
    | inl e => inl e
    | inr module =>
        match module f with
        | Some cb => inr (Some cb)
        | None => inl AttributeError
        end
    end.
Proof.
  intros Hd Hf. unfold _attempt_connection_imports.
  cbn [py_contains py_getitem ebind]. rewrite Hd. cbn [ebind].
  change (m ++ "." ++ f) with (m ++ String "."%char f).
  rewrite rsplit1_last by exact Hf. cbn [hd].
  destruct (import_module rt ("benchbot_api." ++ m)); reflexivity.
Qed.

(** X9.  A connection entry without the key [callback_api] resolves to no
    callback and imports nothing.  An entry whose [callback_api] has no dot
    never resolves: the whole string is imported as a module, and even when
    that import succeeds the lookup of the function name raises an
    [IndexError]. *)
Theorem attempt_connection_imports_needs_a_dot (d : dict) :
  (dict_get d "callback_api" = None ->
   _attempt_connection_imports rt (PDict d) = inr None) /\
  (forall s,
      dict_get d "callback_api" = Some (PStr s) ->
      PyStr.count "."%char s = 0 ->
      _attempt_connection_imports rt (PDict d)
      = match import_module rt ("benchbot_api." ++ s) with
        | inl e => inl e
        | inr _ => inl IndexError
        end).
Proof.
  split.
  - intros Hd. unfold _attempt_connection_imports.
    cbn [py_contains ebind]. now rewrite Hd.
  - intros s Hd Hs. unfold _attempt_connection_imports.
    cbn [py_contains py_getitem ebind]. rewrite Hd. cbn [ebind].
    rewrite rsplit1_without by exact Hs. cbn [hd].
    destruct (import_module rt ("benchbot_api." ++ s)); reflexivity.
Qed.

Lemma callbacks_set_fresh (reg : list (string * option callback)) k cb :
  ~ In k (map fst reg) -> callbacks_set reg k cb = (reg ++ [(k, cb)])%list.
Proof.
  induction reg as [|[k' cb'] reg IH]; intros Hfresh; [reflexivity|].
  cbn [callbacks_set]. cbn in Hfresh.
  destruct (String.eqb_spec k' k) as [-> | _]; [tauto|].
  rewrite IH by tauto. reflexivity.
Qed.

Lemma import_callbacks_all (items : dict) : forall cbs reg,
  Forall2 (fun kv cb => _attempt_connection_imports rt (snd kv) = inr cb)
          items cbs ->
  NoDup (map fst reg ++ map fst items) ->
  import_callbacks rt items reg
  = inr (reg ++ combine (map fst items) cbs)%list.
Proof.
  induction items as [|[k v] items IH]; intros cbs reg Hall Hnd.
  - inversion Hall; subst. cbn. now rewrite app_nil_r.
  - inversion Hall as [|? cb ? cbs' Hk Hrest]; subst.
    cbn [import_callbacks map fst snd combine] in *.
    rewrite Hk. cbn [ebind].
    assert (Hfresh : ~ In k (map fst reg)).
    { intros Hin. apply NoDup_remove_2 in Hnd. apply Hnd.
      apply in_or_app. now left. }
    rewrite callbacks_set_fresh by exact Hfresh.
    rewrite (IH cbs' (reg ++ [(k, cb)])%list Hrest).
    + now rewrite <- app_assoc.
    + rewrite map_app. cbn. rewrite <- app_assoc. exact Hnd.
Qed.

Lemma callbacks_get_combine (keys : list string) : forall cbs k,
  length cbs = length keys -> In k keys ->
  exists cb, callbacks_get (combine keys cbs) k = inr cb.
Proof.
  induction keys as [|k' keys IH]; intros [|cb cbs] k Hlen Hin;
    try discriminate; [destruct Hin|].
  cbn [combine callbacks_get].
  destruct (String.eqb_spec k' k) as [_ | Hne]; [eauto|].
  destruct Hin as [-> | Hin]; [contradiction|].
  apply IH; [now injection Hlen | assumption].
Qed.

Lemma wait_loop_serves self (waits : list value) : forall fuel ready sv sv',
  Forall (flag_is "is_running" false) waits ->
  flag_is "is_running" true ready ->
  serves rt sv
    (map (fun b => (url_of self SIMULATOR "is_running", b)) waits ++
     [(url_of self SIMULATOR "is_running", ready)]) sv' ->
  length waits < fuel ->
  wait_until_running rt fuel self sv = (Returns tt, sv', polls self waits).
Proof.
  induction waits as [|body waits IH];
    intros fuel ready sv sv' Hwaits Hready Hserves Hfuel.
  - destruct fuel as [|fuel]; [inversion Hfuel|].
    cbn [map app] in Hserves.
    inversion Hserves as [|? s1 ? ? ? code ? Hget Hcode Hrest]; subst.
    inversion Hrest; subst.
    destruct Hready as (v & Hv & Htrue).
    cbn [wait_until_running].
    rewrite (bind_returns _ _ _ (receive_returns rt self _ _ _ Hget Hcode)).
    rewrite Hv, bind_lift_inr, Htrue. reflexivity.
  - destruct fuel as [|fuel]; [inversion Hfuel|].
    cbn [map app] in Hserves.
    inversion Hserves as [|? s1 ? ? ? code ? Hget Hcode Hrest]; subst.
    inversion Hwaits as [|? ? (v & Hv & Hfalse) Hwaits']; subst.
    cbn [wait_until_running].
    rewrite (bind_returns _ _ _ (receive_returns rt self _ _ _ Hget Hcode)).
    rewrite Hv, bind_lift_inr, Hfalse. cbn [negb].
    unfold bind at 1. cbn [emit].
    rewrite (IH fuel ready s1 sv' Hwaits' Hready Hrest)
      by (cbn in Hfuel; lia).
    reflexivity.
Qed.

(** X10.  A handshake that succeeds.  The probe is answered, the simulator
    is polled until it runs (one sleep after each poll that finds it not
    running, none after the last), and the robot configuration is fetched
    once.  [start] then returns the client with its address unchanged and a
    new registry that has one entry for every connection of the
    configuration, in its order, holding what
    [_attempt_connection_imports] makes of the entry.  So every connection
    of the configuration can be looked up in the registry afterwards. *)
Theorem start_builds_the_registry
    (fuel : nat) self sv code0 body0 sv1 waits ready sv2 code3 robot sv3 cbs :
  requests_get rt (url_of self EXPLICIT "/") None sv
  = (Response code0 (Some body0), sv1) ->
  (code0 < 300)%Z ->
  Forall (flag_is "is_running" false) waits ->
  flag_is "is_running" true ready ->
  serves rt sv1
    (map (fun b => (url_of self SIMULATOR "is_running", b)) waits ++
     [(url_of self SIMULATOR "is_running", ready)]) sv2 ->
  length waits < fuel ->
  requests_get rt (url_of self CONFIG "robot") None sv2
  = (Response code3 (Some (PDict robot)), sv3) ->
  (code3 < 300)%Z ->
  NoDup (map fst robot) ->
  Forall2 (fun kv cb => _attempt_connection_imports rt (snd kv) = inr cb)
          robot cbs ->
  start rt fuel self sv
  = (Returns {| supervisor_address := supervisor_address self;
                _connection_callbacks := combine (map fst robot) cbs |},
     sv3,
     ([ Print "Waiting to establish connection to a running supervisor ... ";
        HttpGet (url_of self EXPLICIT "/") None;
        Print ("Connected!" ++ PyStr.newline);
        Print "Waiting to establish connection to a running simulator ... " ] ++
      polls self waits ++
      [ Print ("Connected!" ++ PyStr.newline);
        HttpGet (url_of self CONFIG "robot") None ])%list) /\
  (forall k, In k (map fst robot) ->
     exists cb, callbacks_get (combine (map fst robot) cbs) k = inr cb).
Proof.
  intros Hprobe Hcode0 Hwaits Hready Hserves Hfuel Hrobot Hcode3 Hnd Hall.
  split.
  - unfold start. unfold bind at 1. cbn [emit].
    assert (Htry :
      try_except (_receive rt self (PStr "/") EXPLICIT) is_ConnectionError
        (fun e => raise (same_class e
                   ("Could not find a BenchBot supervisor @ '" ++
                    supervisor_address self ++ "'. " ++
                    "Are you sure it is available?"))) sv
      = (Returns body0, sv1, [HttpGet (url_of self EXPLICIT "/") None])).
    { unfold try_except.
      now rewrite (receive_returns rt self _ _ _ Hprobe Hcode0). }
    rewrite (bind_returns _ _ _ Htry).
    unfold bind at 1. cbn [emit]. unfold bind at 1. cbn [emit].
    rewrite (bind_returns _ _ _
               (@wait_loop_serves self waits fuel ready sv1 sv2 Hwaits Hready
                  Hserves Hfuel)).
    unfold bind at 1. cbn [emit].
    rewrite (bind_returns _ _ _ (receive_returns rt self _ _ _ Hrobot Hcode3)).
    rewrite bind_lift_inr.
    rewrite (@import_callbacks_all robot cbs [] Hall Hnd).
    rewrite bind_lift_inr. cbn [after ret app]. reflexivity.
  - intros k Hin. apply callbacks_get_combine; [|assumption].
    rewrite length_map. symmetry. exact (Forall2_length Hall).
Qed.

End Registry.

(** ** Episodes: the constructor, [reset] and [run] *)

Section Episodes.

Context {S : Type} (rt : runtime S) (fs : filesystem S).

Lemma reset_raises self sv :
  exists e sv' tr, reset rt self sv = (Raises e, sv', tr).
Proof.
  unfold reset.
  apply bind_tail_raises; [apply receive_never_blocks|]. intros dirty s1.
  apply bind_tail_raises; [apply never_blocks_lift|]. intros is_dirty s2.
  apply bind_tail_raises; [|intros _ s3; cbn; eauto].
  destruct (py_truthy is_dirty); [|apply never_blocks_ret].
  apply never_blocks_bind; [apply never_blocks_emit|]. intros _.
  apply never_blocks_bind; [apply receive_never_blocks|]. intros _.
  apply never_blocks_emit.
Qed.

(** X11.  [reset] asks the simulator to restart exactly when it reports a
    dirty state: then the restart is requested once, between the two
    notices; with a clean state nothing but the flag is asked for.  Either
    way the call then ends in the [TypeError] of [step(None)]. *)
Theorem reset_restarts_only_when_dirty self sv code body sv1 dirty :
  requests_get rt (url_of self SIMULATOR "is_dirty") None sv
  = (Response code (Some body), sv1) ->
  (code < 300)%Z ->
  py_getitem body "is_dirty" = inr dirty ->
  (py_truthy dirty = false ->
   reset rt self sv
   = (Raises TypeError, sv1,
      [HttpGet (url_of self SIMULATOR "is_dirty") None])) /\
  (forall code2 body2 sv2,
      py_truthy dirty = true ->
      requests_get rt (url_of self SIMULATOR "restart") None sv1
      = (Response code2 (Some body2), sv2) ->
      (code2 < 300)%Z ->
      reset rt self sv
      = (Raises TypeError, sv2,
         [ HttpGet (url_of self SIMULATOR "is_dirty") None;
           Print "Dirty simulator state detected. Performing reset ... ";
           HttpGet (url_of self SIMULATOR "restart") None;
           Print ("Complete." ++ PyStr.newline) ])).
Proof.
  intros Hget Hcode Hflag. split.
  - intros Hclean. unfold reset.
    rewrite (bind_returns _ _ _ (receive_returns rt self _ _ _ Hget Hcode)).
    rewrite Hflag, bind_lift_inr, Hclean. reflexivity.
  - intros code2 body2 sv2 Hdirty Hrestart Hcode2. unfold reset.
    rewrite (bind_returns _ _ _ (receive_returns rt self _ _ _ Hget Hcode)).
    rewrite Hflag, bind_lift_inr, Hdirty.
    unfold bind at 1. unfold bind at 1. cbn [emit].
    rewrite (bind_returns _ _ _ (receive_returns rt self _ _ _ Hrestart Hcode2)).
    reflexivity.
Qed.

(** X12.  [run] never gets past its first line: whatever the agent, the
    file system and the supervisor are, the call raises what [reset]
    raises, in the state and after the events of [reset]; the agent is not
    asked whether it is done, picks no action and saves no result. *)
Theorem run_raises_in_reset (fuel : nat) self (agent : Agent S) sv :
  exists e sv' tr,
    reset rt self sv = (Raises e, sv', tr) /\
    run rt fs fuel self agent sv = (Raises e, sv', tr).
Proof.
  destruct (reset_raises self sv) as (e & sv' & tr & Hreset).
  exists e, sv', tr. split; [exact Hreset|].
  unfold run. now rewrite (bind_raises _ _ _ Hreset).
Qed.

(** X13.  A client made with [auto_start=False] has an empty registry and
    has asked the supervisor nothing.  Until [start] is called, a step of
    it that finds at least one observation key raises the [KeyError] of the
    first key, after the action was sent and every observation was
    fetched. *)
Theorem unstarted_client_cannot_observe
    (fuel : nat) (agent : Agent S) address sv0
    a valid (kwargs : dict) sv code body sv1 result sv2 flag_queries
    k keys raws sv3 :
  schema_get VALID_ACTIONS a = Some valid ->
  map fst kwargs = valid ->
  requests_get rt (url_of (unstarted address) CONNECTION a) (Some kwargs) sv
  = (Response code body, sv1) ->
  (code < 300)%Z ->
  derive_action_result rt (unstarted address) sv1
  = (Returns result, sv2, flag_queries) ->
  NoDup (k :: keys) ->
  length raws = length (k :: keys) ->
  serves rt sv2
    ((url_of (unstarted address) CONFIG "observations",
      PList (map PStr (k :: keys)))
     :: combine (map (url_of (unstarted address) CONNECTION) (k :: keys)) raws)
    sv3 ->
  __init__ rt fuel (IsAgent agent) address false sv0
  = (Returns (unstarted address, agent), sv0, []) /\
  step rt (unstarted address) (Some a) kwargs sv
  = (Raises (KeyError k), sv3,
     (sending rt (unstarted address) a kwargs ++ flag_queries ++
      HttpGet (url_of (unstarted address) CONFIG "observations") None ::
      fetches (unstarted address) (k :: keys))%list).
Proof.
  intros Hschema Hnames Hsend Hcode Hderive Hnd Hraws Hserves.
  split; [reflexivity|].
  rewrite (@step_validated _ rt (unstarted address) a valid kwargs sv
             Hschema Hnames).
  inversion Hserves as [|? s_obs ? ? ? code_obs ? Hget Hcode_obs Hrest]; subst.
  rewrite (@perform_sent _ rt (unstarted address) a kwargs sv code body sv1
             Hsend Hcode).
  rewrite (bind_returns _ _ _ Hderive).
  unfold observations.
  rewrite (bind_returns _ _ _
             (receive_returns rt (unstarted address) _ _ _ Hget Hcode_obs)).
  cbn [py_iter]. rewrite bind_lift_inr.
  rewrite (bind_returns _ _ _
             (@fetch_raw_os_serves _ rt (unstarted address) (k :: keys) raws
                [] s_obs sv3 Hraws Hnd Hrest)).
  destruct raws as [|raw raws]; [discriminate|].
  cbn [after app combine apply_callbacks callbacks_get unstarted
       _connection_callbacks ebind lift raise bind].
  now rewrite app_nil_r.
Qed.

End Episodes.

(** ** Observation keys that come more than once *)

Section Repeats.

Context {S : Type} (rt : runtime S).

Lemma dict_get_set (d : dict) k v k' :
  dict_get (dict_set d k v) k'
  = if String.eqb k k' then Some v else dict_get d k'.
Proof.
  induction d as [|[k0 v0] d IH]; [reflexivity|].
  cbn [dict_set].
  destruct (String.eqb_spec k0 k) as [-> | Hne]; cbn [dict_get].
  - destruct (String.eqb_spec k k'); reflexivity.
  - rewrite IH.
    destruct (String.eqb_spec k0 k') as [-> | _]; [|reflexivity].
    destruct (String.eqb_spec k k'); [congruence | reflexivity].
Qed.

Lemma dict_set_keys (d : dict) k v :
  map fst (dict_set d k v)
  = if str_in k (map fst d) then map fst d else (map fst d ++ [k])%list.
Proof.
  induction d as [|[k0 v0] d IH]; [reflexivity|].
  cbn [dict_set map fst str_in existsb]. rewrite (String.eqb_sym k k0).
  destruct (String.eqb_spec k0 k) as [-> | Hne]; cbn [orb map fst];
    [reflexivity|].
  rewrite IH. unfold str_in. now destruct (existsb (String.eqb k) (map fst d)).
Qed.

Lemma dict_set_keys_NoDup (d : dict) k v :
  NoDup (map fst d) -> NoDup (map fst (dict_set d k v)).
Proof.
  intros Hnd. rewrite dict_set_keys.
  destruct (str_in k (map fst d)) eqn:E; [assumption|].
  apply NoDup_app; [assumption | repeat constructor; intros [] |].
  intros x Hx [<- | []].
  apply (proj2 (str_in_In k (map fst d))) in Hx. congruence.
Qed.

Lemma fold_dict_set_NoDup (items : list (string * value)) : forall acc : dict,
  NoDup (map fst acc) ->
  NoDup (map fst (fold_left (fun d kv => dict_set d (fst kv) (snd kv))
                            items acc)).
Proof.
  induction items as [|[k v] items IH]; intros acc Hnd; [assumption|].
  cbn [fold_left fst snd]. apply IH. now apply dict_set_keys_NoDup.
Qed.

Lemma fold_dict_set_get (items : list (string * value)) k : forall acc : dict,
  dict_get (fold_left (fun d kv => dict_set d (fst kv) (snd kv)) items acc) k
  = fold_left (fun found kv => if String.eqb (fst kv) k then Some (snd kv)
                               else found) items (dict_get acc k).
Proof.
  induction items as [|[k0 v0] items IH]; intros acc; [reflexivity|].
  cbn [fold_left fst snd]. now rewrite IH, dict_get_set.
Qed.

Lemma fetch_raw_os_any self keys : forall raws (acc : dict) s s',
  length raws = length keys ->
  serves rt s (combine (map (url_of self CONNECTION) keys) raws) s' ->
  fetch_raw_os rt self (map PStr keys) acc s
  = (Returns (fold_left (fun d kv => dict_set d (fst kv) (snd kv))
                        (combine keys raws) acc),
     s', fetches self keys).
Proof.
  induction keys as [|k keys IH]; intros raws acc s s' Hlen Hserves.
  - cbn in *. now inversion Hserves; subst.
  - destruct raws as [|raw raws]; [discriminate|].
    cbn [map combine] in Hserves.
    inversion Hserves as [|? s1 ? ? ? code ? Hget Hcode Hrest]; subst.
    cbn [map fetch_raw_os combine fold_left fst snd].
    rewrite (bind_returns _ _ _ (receive_returns rt self _ _ _ Hget Hcode)).
    rewrite (IH raws (dict_set acc k raw) s1 s');
      [reflexivity | now injection Hlen | exact Hrest].
Qed.

Lemma dict_get_found (d : dict) k :
  dict_get d k <> None <-> In k (map fst d).
Proof.
  induction d as [|[k0 v0] d IH]; cbn [dict_get map fst In].
  - split; [now intros H | intros []].
  - destruct (String.eqb_spec k0 k) as [-> | Hne].
    + split; [now left | discriminate].
    + rewrite IH. split; [now right | now intros [H | H]].
Qed.

Lemma last_value_snoc k (items : list (string * value)) k0 v0 :
  last_value k (items ++ [(k0, v0)])
  = if String.eqb k0 k then Some v0 else last_value k items.
Proof.
  unfold last_value. now rewrite fold_left_app.
Qed.

Lemma last_value_found k (items : list (string * value)) :
  last_value k items <> None <-> In k (map fst items).
Proof.
  induction items as [|[k0 v0] items IH] using rev_ind.
  - cbn. split; [now intros H | intros []].
  - rewrite last_value_snoc, map_app, in_app_iff. cbn [map fst In].
    destruct (String.eqb_spec k0 k) as [-> | Hne].
    + split; [now right; left | discriminate].
    + rewrite IH. split; [now left | now intros [H | [H | []]]].
Qed.

Lemma fold_dict_set_keys (items : list (string * value)) : forall acc : dict,
  map fst (fold_left (fun d kv => dict_set d (fst kv) (snd kv)) items acc)
  = (map fst acc ++ distinct (map fst acc) (map fst items))%list.
Proof.
  induction items as [|[k v] items IH]; intros acc.
  - cbn. now rewrite app_nil_r.
  - cbn [fold_left fst snd map distinct]. rewrite IH, dict_set_keys.
    destruct (str_in k (map fst acc)); [reflexivity|].
    now rewrite <- app_assoc.
Qed.

(** The map of the raw values has its keys in the order in which they come
    first in the list. *)
Lemma raw_os_keys (keys : list string) (raws : list value) :
  length raws = length keys ->
  map fst (dict_of_items (combine keys raws)) = distinct [] keys.
Proof.
  intros Hlen. unfold dict_of_items. rewrite fold_dict_set_keys.
  cbn [map app]. now rewrite map_fst_combine.
Qed.



(** What a step does up to the map of the raw values, for a call that gets
    past the validation and whose requests the supervisor answers. *)
Lemma step_up_to_raw_os
    self a valid (kwargs : dict) sv code body sv1 result sv2 flag_queries
    keys raws sv3 :
  schema_get VALID_ACTIONS a = Some valid ->
  map fst kwargs = valid ->
  requests_get rt (url_of self CONNECTION a) (Some kwargs) sv
  = (Response code body, sv1) ->
  (code < 300)%Z ->
  derive_action_result rt self sv1 = (Returns result, sv2, flag_queries) ->
  length raws = length keys ->
  serves rt sv2
    ((url_of self CONFIG "observations", PList (map PStr keys))
     :: combine (map (url_of self CONNECTION) keys) raws) sv3 ->
  step rt self (Some a) kwargs sv
  = after (sending rt self a kwargs ++ flag_queries ++
           HttpGet (url_of self CONFIG "observations") None ::
           fetches self keys)%list
      (bind (lift (apply_callbacks (_connection_callbacks self)
                     (dict_of_items (combine keys raws)) []))
            (fun os => ret (os, result)) sv3).
Proof.
  intros Hschema Hnames Hsend Hcode Hderive Hraws Hserves.
  rewrite (@step_validated _ rt self a valid kwargs sv Hschema Hnames).
  inversion Hserves as [|? s_obs ? ? ? code_obs ? Hget Hcode_obs Hrest]; subst.
  rewrite (@perform_sent _ rt self a kwargs sv code body sv1 Hsend Hcode).
  rewrite (bind_returns _ _ _ Hderive).
  unfold observations.
  rewrite (bind_returns _ _ _ (receive_returns rt self _ _ _ Hget Hcode_obs)).
  cbn [py_iter]. rewrite bind_lift_inr.
  rewrite (bind_returns _ _ _
             (@fetch_raw_os_any self keys raws [] s_obs sv3 Hraws Hrest)).
  fold (dict_of_items (combine keys raws)).
  match goal with |- context [bind ?c ?k sv3] =>
    destruct (bind c k sv3) as [[r s] t] end.
  cbn [after]. now rewrite <- !app_assoc.
Qed.

(** X14.  The list of observation keys may hold a key more than once.  The
    step then makes one request for every place of the list, in order, and
    the map it returns has one entry for each distinct key, the keys in the
    order in which they come first in the list, each made from the value
    fetched last for the key. *)
Theorem step_repeated_observation_keys
    self a valid (kwargs : dict) sv code body sv1 result sv2 flag_queries
    keys raws outs sv3 :
  schema_get VALID_ACTIONS a = Some valid ->
  map fst kwargs = valid ->
  requests_get rt (url_of self CONNECTION a) (Some kwargs) sv
  = (Response code body, sv1) ->
  (code < 300)%Z ->
  derive_action_result rt self sv1 = (Returns result, sv2, flag_queries) ->
  length raws = length keys ->
  serves rt sv2
    ((url_of self CONFIG "observations", PList (map PStr keys))
     :: combine (map (url_of self CONNECTION) keys) raws) sv3 ->
  Forall2 (fun kr out =>
             observed (_connection_callbacks self) (fst kr) (snd kr) out)
          (dict_of_items (combine keys raws)) outs ->
  step rt self (Some a) kwargs sv
  = (Returns (combine (distinct [] keys) outs, result),
     sv3,
     (sending rt self a kwargs ++ flag_queries ++
      HttpGet (url_of self CONFIG "observations") None ::
      fetches self keys)%list) /\
  length (fetches self keys) = length keys /\
  map fst (dict_of_items (combine keys raws)) = distinct [] keys /\
  NoDup (distinct [] keys) /\
  (forall k, In k (distinct [] keys) <-> In k keys) /\
  (forall k, dict_get (dict_of_items (combine keys raws)) k
             = last_value k (combine keys raws)).
Proof.
  intros Hschema Hnames Hsend Hcode Hderive Hraws Hserves Hobs.
  pose proof (raw_os_keys keys raws Hraws) as Hkeys.
  assert (Hnd : NoDup (map fst (dict_of_items (combine keys raws))))
    by (apply fold_dict_set_NoDup; constructor).
  assert (Hget_all : forall k,
             dict_get (dict_of_items (combine keys raws)) k
             = last_value k (combine keys raws))
    by (intros k; apply fold_dict_set_get).
  split; [|split; [apply length_map |
           split; [exact Hkeys |
           split; [now rewrite <- Hkeys | split; [|exact Hget_all]]]]].
  - rewrite (@step_up_to_raw_os self a valid kwargs sv code body sv1 result
               sv2 flag_queries keys raws sv3
               Hschema Hnames Hsend Hcode Hderive Hraws Hserves).
    rewrite (@apply_callbacks_observed (_connection_callbacks self)
               (dict_of_items (combine keys raws)) outs [] Hobs)
      by exact Hnd.
    rewrite bind_lift_inr, Hkeys. cbn [after ret app].
    now rewrite app_nil_r.
  - intros k. rewrite <- Hkeys.
    rewrite <- dict_get_found, Hget_all, last_value_found.
    now rewrite map_fst_combine.
Qed.


End Repeats.

(** ** The further theorems at work *)

Module MoreRuns.

Import Stub.

Lemma step_unknown_action_witness :
  step rt (bot []) (Some "fly") [("height", PInt 3)] (episode false false)
  = (Raises (RuntimeError (invalid_action_message "fly")),
     episode false false, []).
Proof.
  apply (@step_unknown_action_raises _ rt (bot []) "fly"); discriminate.
Defined.

Lemma step_send_failure_witness :
  step rt (bot registry) (Some "move_next") [] down
  = (Raises (ConnectionError (send_failure rt "move_next" CONNECTION [])),
     down, sending rt (bot registry) "move_next" []).
Proof.
  apply (@step_send_failure_aborts _ rt (bot registry) "move_next" [] [] down
           (Unreachable (OtherError "ConnectTimeout")) down);
    first [reflexivity | exact I].
Defined.

(** The action is accepted, and the collision flag comes as an empty dict. *)
Lemma step_flag_without_key_witness :
  step Script.rt (bot registry) (Some "move_next") []
    [Script.ok PNone; Script.ok (PDict [])]
  = (Raises (KeyError "is_collided"), [],
     (sending Script.rt (bot registry) "move_next" [] ++
      [HttpGet "http://benchbot_supervisor:10000/simulator/is_collided" None])%list).
Proof.
  apply (proj1 (@step_flag_without_key_raises_KeyError _ Script.rt
                  (bot registry) "move_next" [] []
                  [Script.ok PNone; Script.ok (PDict [])] 200%Z (Some PNone)
                  [Script.ok (PDict [])] 200%Z [] []
                  eq_refl eq_refl eq_refl ltac:(lia) eq_refl ltac:(lia))).
  reflexivity.
Defined.

(** [_receive()] with the default route name. *)
Lemma receive_masks_route_name_witness :
  _build_address (bot []) PNone (Member CONNECTION) = inl TypeError /\
  _receive rt (bot []) PNone CONNECTION (episode false false)
  = (Raises (ConnectionError receive_failure), episode false false, []).
Proof.
  apply (@receive_masks_route_name_error _ rt (bot []) PNone CONNECTION).
  discriminate.
Defined.

Lemma build_address_final_slash_witness :
  _build_address (unstarted "http://localhost:10000/") (PStr "is_dirty")
    (Member SIMULATOR)
  = _build_address (unstarted "http://localhost:10000") (PStr "is_dirty")
      (Member SIMULATOR).
Proof.
  apply (@build_address_final_slash_optional
           (unstarted "http://localhost:10000")
           (unstarted "http://localhost:10000/"));
    reflexivity.
Defined.

(** A supervisor whose root answers 200 with a page that is no JSON. *)
Lemma start_probe_needs_json_witness :
  (exists p, url_of (bot []) EXPLICIT "/" = p ++ "//") /\
  start Script.rt 5 (bot []) [Response 200 None]
  = (Raises (ConnectionError (not_found_message (bot []))), [],
     [ Print "Waiting to establish connection to a running supervisor ... ";
       HttpGet (url_of (bot []) EXPLICIT "/") None ]).
Proof.
  apply (@start_probe_needs_json _ Script.rt 5 (bot []) [Response 200 None]
           200%Z None []).
  - reflexivity.
  - now right.
Defined.

(** Two polls find the simulator not running, the third finds it running;
    the robot has a camera with a callback and a pose source without. *)
Lemma start_builds_the_registry_witness :
  start Script.rt 5 (bot [])
    [ Script.ok (PStr "Hello");
      Script.ok (flag "is_running" false); Script.ok (flag "is_running" false);
      Script.ok (flag "is_running" true);
      Script.ok (PDict [ ("image_rgb",
                   PDict [("callback_api", PStr "api_callbacks.wrap")]);
                  ("poses", PDict []) ]) ]
  = (Returns (bot registry), [],
     ([ Print "Waiting to establish connection to a running supervisor ... ";
        HttpGet (url_of (bot []) EXPLICIT "/") None;
        Print ("Connected!" ++ PyStr.newline);
        Print "Waiting to establish connection to a running simulator ... " ] ++
      polls (bot []) [flag "is_running" false; flag "is_running" false] ++
      [ Print ("Connected!" ++ PyStr.newline);
        HttpGet (url_of (bot []) CONFIG "robot") None ])%list).
Proof.
  destruct (@start_builds_the_registry _ Script.rt 5 (bot [])
              [ Script.ok (PStr "Hello");
                Script.ok (flag "is_running" false);
                Script.ok (flag "is_running" false);
                Script.ok (flag "is_running" true);
                Script.ok (PDict [ ("image_rgb",
                                    PDict [("callback_api",
                                            PStr "api_callbacks.wrap")]);
                                   ("poses", PDict []) ]) ]
              200%Z (PStr "Hello")
              [ Script.ok (flag "is_running" false);
                Script.ok (flag "is_running" false);
                Script.ok (flag "is_running" true);
                Script.ok (PDict [ ("image_rgb",
                                    PDict [("callback_api",
                                            PStr "api_callbacks.wrap")]);
                                   ("poses", PDict []) ]) ]
              [flag "is_running" false; flag "is_running" false]
              (flag "is_running" true)
              [Script.ok (PDict [ ("image_rgb",
                                   PDict [("callback_api",
                                           PStr "api_callbacks.wrap")]);
                                  ("poses", PDict []) ])]
              200%Z
              [ ("image_rgb",
                 PDict [("callback_api", PStr "api_callbacks.wrap")]);
                ("poses", PDict []) ]
              [] [Some wrap; None]) as [Hstart _].
  - reflexivity.
  - lia.
  - repeat constructor; exists (PBool false); now split.
  - exists (PBool true). now split.
  - repeat (eapply serves_cons; [reflexivity | lia |]). apply serves_nil.
  - cbn. lia.
  - reflexivity.
  - lia.
  - repeat constructor; cbn; intuition discriminate.
  - repeat constructor.
  - exact Hstart.
Defined.

Lemma attempt_connection_imports_witness :
  _attempt_connection_imports Script.rt
    (PDict [("callback_api", PStr "api_callbacks.wrap")])
  = inr (Some wrap).
Proof.
  apply (@attempt_connection_imports_cuts_at_last_dot _ Script.rt
           [("callback_api", PStr "api_callbacks.wrap")]
           "api_callbacks" "wrap");
    reflexivity.
Defined.

Lemma reset_restarts_witness :
  reset Script.rt (bot registry) [Script.ok (flag "is_dirty" true); Script.ok PNone]
  = (Raises TypeError, [],
     [ HttpGet (url_of (bot registry) SIMULATOR "is_dirty") None;
       Print "Dirty simulator state detected. Performing reset ... ";
       HttpGet (url_of (bot registry) SIMULATOR "restart") None;
       Print ("Complete." ++ PyStr.newline) ]).
Proof.
  apply (proj2 (@reset_restarts_only_when_dirty _ Script.rt (bot registry)
                  [Script.ok (flag "is_dirty" true); Script.ok PNone] 200%Z
                  (flag "is_dirty" true) [Script.ok PNone] (PBool true)
                  eq_refl ltac:(lia) eq_refl)
           200%Z PNone []);
    first [reflexivity | lia].
Defined.

Lemma unstarted_client_witness :
  __init__ Script.rt 5 (IsAgent Script.idle) default_supervisor_address false
    []
  = (Returns (unstarted default_supervisor_address, Script.idle), [], []) /\
  step Script.rt (unstarted default_supervisor_address) (Some "move_next") []
    [ Script.ok PNone; Script.ok (flag "is_collided" false); Script.ok (flag "is_finished" false);
      Script.ok (PList [PStr "poses"]); Script.ok (PInt 1) ]
  = (Raises (KeyError "poses"), [],
     (sending Script.rt (unstarted default_supervisor_address) "move_next" [] ++
      [ HttpGet "http://benchbot_supervisor:10000/simulator/is_collided" None;
        HttpGet "http://benchbot_supervisor:10000/status/is_finished" None ] ++
      HttpGet "http://benchbot_supervisor:10000/config/observations" None ::
      fetches (unstarted default_supervisor_address) ["poses"])%list).
Proof.
  apply (@unstarted_client_cannot_observe _ Script.rt 5 Script.idle
           default_supervisor_address [] "move_next" [] []
           [ Script.ok PNone; Script.ok (flag "is_collided" false);
             Script.ok (flag "is_finished" false);
             Script.ok (PList [PStr "poses"]); Script.ok (PInt 1) ]
           200%Z (Some PNone)
           [ Script.ok (flag "is_collided" false); Script.ok (flag "is_finished" false);
             Script.ok (PList [PStr "poses"]); Script.ok (PInt 1) ]
           SUCCESS
           [ Script.ok (PList [PStr "poses"]); Script.ok (PInt 1) ]
           [ HttpGet "http://benchbot_supervisor:10000/simulator/is_collided"
               None;
             HttpGet "http://benchbot_supervisor:10000/status/is_finished"
               None ]
           "poses" [] [PInt 1] []).
  - reflexivity.
  - reflexivity.
  - reflexivity.
  - lia.
  - reflexivity.
  - repeat constructor. intros [].
  - reflexivity.
  - repeat (eapply serves_cons; [reflexivity | lia |]). apply serves_nil.
Defined.

(** The key [image_rgb] comes twice: three requests, two entries, and the
    later value of [image_rgb] is the one returned. *)
Lemma step_repeated_keys_witness :
  step Script.rt (bot registry) (Some "move_next") []
    [ Script.ok PNone; Script.ok (flag "is_collided" false); Script.ok (flag "is_finished" false);
      Script.ok (PList [PStr "image_rgb"; PStr "poses"; PStr "image_rgb"]);
      Script.ok (PInt 1); Script.ok (PInt 2); Script.ok (PInt 3) ]
  = (Returns ([("image_rgb", PList [PInt 3]); ("poses", PInt 2)], SUCCESS), [],
     (sending Script.rt (bot registry) "move_next" [] ++
      [ HttpGet "http://benchbot_supervisor:10000/simulator/is_collided" None;
        HttpGet "http://benchbot_supervisor:10000/status/is_finished" None ] ++
      HttpGet "http://benchbot_supervisor:10000/config/observations" None ::
      fetches (bot registry) ["image_rgb"; "poses"; "image_rgb"])%list).
Proof.
  apply (proj1 (@step_repeated_observation_keys _ Script.rt (bot registry)
                  "move_next" [] []
                  [ Script.ok PNone; Script.ok (flag "is_collided" false);
                    Script.ok (flag "is_finished" false);
                    Script.ok (PList [PStr "image_rgb"; PStr "poses";
                               PStr "image_rgb"]);
                    Script.ok (PInt 1); Script.ok (PInt 2); Script.ok (PInt 3) ]
                  200%Z (Some PNone)
                  [ Script.ok (flag "is_collided" false);
                    Script.ok (flag "is_finished" false);
                    Script.ok (PList [PStr "image_rgb"; PStr "poses";
                               PStr "image_rgb"]);
                    Script.ok (PInt 1); Script.ok (PInt 2); Script.ok (PInt 3) ]
                  SUCCESS
                  [ Script.ok (PList [PStr "image_rgb"; PStr "poses";
                               PStr "image_rgb"]);
                    Script.ok (PInt 1); Script.ok (PInt 2); Script.ok (PInt 3) ]
                  [ HttpGet
                      "http://benchbot_supervisor:10000/simulator/is_collided"
                      None;
                    HttpGet
                      "http://benchbot_supervisor:10000/status/is_finished"
                      None ]
                  ["image_rgb"; "poses"; "image_rgb"]
                  [PInt 1; PInt 2; PInt 3]
                  [PList [PInt 3]; PInt 2] []
                  eq_refl eq_refl eq_refl ltac:(lia) eq_refl eq_refl
                  ltac:(repeat (eapply serves_cons; [reflexivity | lia |]);
                        apply serves_nil)
                  ltac:(repeat constructor))).
Defined.


(** A keyword named [action]: the count is right and the name is not a
    required one, yet the call raises a [TypeError], since Python cannot
    bind the keyword. *)
Lemma step_keyword_named_action_raises_TypeError :
  schema_get VALID_ACTIONS "move_distance" = Some ["distance"] /\
  length [("action", PInt 1)] = length ["distance"] /\
  str_in "action" ["distance"] = false /\
  step rt (bot []) (Some "move_distance") [("action", PInt 1)]
    (episode false false)
  = (Raises TypeError, episode false false, []).
Proof.
  repeat split.
Qed.

End MoreRuns.
